(** * The sales-and-inventory ledger of shopmasterback_v1

    A shallow embedding of [src/services/sales.service.ts] and
    [src/services/inventory.service.ts], with the entities, request types and
    error class they use, and the properties of the ledger proved over it.

    Conventions of the embedding.
    - A table is a finite map from the primary key [id] (a uuid string) to the
      remaining columns of the row; [findOneBy({ id })] is a lookup and
      [save(entity)] an insert at the entity's key.
    - The rows of [sales_products] are kept under the sale that owns them (the
      one-to-many relation [Sales.products], saved by cascade), so that
      [find({ where: { salesId } })] is the relation of that sale.
    - Every service method takes the store and returns the store it leaves
      behind together with either the error it throws or the value it
      returns.  No method of the two services opens a database transaction:
      each [save]/[update] is written to the store when it is issued, and it
      stays written when a later statement throws.  A single [save] is
      atomic: the sale and its lines are inserted together or not at all.
    - Quantities are integers and money amounts are integers in minor
      currency units, with exact arithmetic.  A column holds the values of
      its type only ([int], [decimal(p, 2)]): a [save] of a value outside
      the range throws a [QueryFailedError] and writes nothing.
    - Values the store generates at insertion (the uuid, the creation date) are
      passed in as [Generated]. *)

From stdpp Require Import gmap strings list fin_maps sorting.
From Stdlib Require Import ZArith.

Open Scope Z_scope.

(** ** Errors: [utils/apiError.ts] *)

(** The message templates of the errors thrown by the two services. *)
Inductive Message :=
| SalesPersonNotFound
| ProductNotFoundInAssignedOutlet (productId : string)
| InsufficientStockFor (productName : string) (available : Z)
| SaleRecordNotFound
| OnlyReturnedSupported
| OutletNotFound
| ActionerNotFound
| ProductNotFoundInOutlet (productId : string)
| InventoryRecordNotFound
| InventoryAlreadyReconciled.

Record ApiError := mkApiError { message : Message; statusCode : Z }.

Definition NotFoundError (m : Message) : ApiError := mkApiError m 404.
Definition BadRequestError (m : Message) : ApiError := mkApiError m 400.
Definition ConflictError (m : Message) : ApiError := mkApiError m 409.

(** What a service call yields: the error thrown or the value returned. *)
Definition Outcome (A : Type) : Type := ApiError + A.

(** What a call can throw when it also reaches the ORM with a query the ORM
    or the database rejects: besides the [ApiError]s of the service, the
    [QueryFailedError] of a statement on a table whose value does not fit its
    column, and the [EntityPropertyNotFoundError] of a [relations] option
    naming a property that is no relation of the entity.  The last two are no
    [ApiError]s and carry no status code. *)
Inductive Failure :=
| Api (e : ApiError)
| QueryFailedError (table : string)
| EntityPropertyNotFoundError (propertyPath : string).

Definition Result (A : Type) : Type := Failure + A.



(** The stock-check failure of [recordSale]: a 400 with the insufficient-stock
    message. *)
Definition isInsufficientStock (e : ApiError) : Prop :=
  statusCode e = 400 ∧ ∃ n a, message e = InsufficientStockFor n a.

(** ** Column types

    The values a column of the type holds.  A statement that writes another
    value is rejected by the database. *)

(** [type: 'int']: a signed integer of 32 bits. *)
Definition intColumn (v : Z) : bool :=
  (-2147483648 <=? v) && (v <=? 2147483647).

(** [type: 'decimal', precision, scale: 2], on an amount in minor units:
    [precision] digits in all. *)
Definition decimalColumn (precision : Z) (v : Z) : bool :=
  Z.abs v <? 10 ^ precision.

(** ** Entities: [database/entities] *)

Module SalesStatus.
Inductive t := COMPLETED | RETURNED | PENDING | CANCELLED.

#[global] Instance eq_dec : EqDecision t.
Proof. solve_decision. Defined.

(** The string value of each member, as stored and as compared by queries. *)
Definition value (s : t) : string :=
  match s with
  | COMPLETED => "completed"
  | RETURNED => "returned"
  | PENDING => "pending"
  | CANCELLED => "cancelled"
  end.
End SalesStatus.

Module PaymentChannel.
Inductive t := CASH | TRANSFER | CARD | OTHER | FLUTTER.

Definition value (c : t) : string :=
  match c with
  | CASH => "cash"
  | TRANSFER => "transfer"
  | CARD => "card"
  | OTHER => "other"
  | FLUTTER => "flutter"
  end.
End PaymentChannel.

Module InventoryStatus.
Inductive t := PENDING | COMPLETED | RECONCILED.

#[global] Instance eq_dec : EqDecision t.
Proof. solve_decision. Defined.

Definition value (s : t) : string :=
  match s with
  | PENDING => "pending"
  | COMPLETED => "completed"
  | RECONCILED => "reconciled"
  end.
End InventoryStatus.

Module User.
Record t := mk {
  email : string;
  userType : string;
  businessId : option string;
  outletId : option string
}.
End User.

Module Outlet.
Record t := mk {
  name : string;
  businessId : string
}.
End Outlet.

Module Product.
Record t := mk {
  name : string;
  price : Z;
  quantity : Z;
  reOrderPoint : Z;
  outletId : string;
  businessId : string
}.

(** [product.quantity = q] on the entity in hand. *)
Definition setQuantity (q : Z) (p : t) : t :=
  mk (name p) (price p) q (reOrderPoint p) (outletId p) (businessId p).
End Product.

Module SalesProduct.
Record t := mk {
  productId : string;
  productName : string;
  quantity : Z;
  priceAtSale : Z
}.

(** The line fits its columns: [quantity] is an [int], [priceAtSale] a
    [decimal(10, 2)]. *)
Definition fits (sp : t) : bool :=
  intColumn (quantity sp) && decimalColumn 10 (priceAtSale sp).
End SalesProduct.

Module Customer.
Record t := mk {
  name : string;
  phone : option string;
  email : option string;
  address : option string
}.
End Customer.

Module Sales.
Record t := mk {
  products : list SalesProduct.t;
  totalAmount : Z;
  discount : option Z;
  status : SalesStatus.t;
  remainingToPay : Z;
  amountPaid : Z;
  paymentChannel : PaymentChannel.t;
  customer : option Customer.t;
  salesPersonId : option string;
  createdAt : Z
}.

(** [sale.status = s] on the entity in hand. *)
Definition setStatus (s : SalesStatus.t) (x : t) : t :=
  mk (products x) (totalAmount x) (discount x) s (remainingToPay x)
     (amountPaid x) (paymentChannel x) (customer x) (salesPersonId x)
     (createdAt x).

(** The row fits its columns: [totalAmount], [remainingToPay] and
    [amountPaid] are [decimal(12, 2)], the nullable [discount] a
    [decimal(5, 2)]. *)
Definition fits (x : t) : bool :=
  decimalColumn 12 (totalAmount x)
  && from_option (decimalColumn 5) true (discount x)
  && decimalColumn 12 (remainingToPay x)
  && decimalColumn 12 (amountPaid x).
End Sales.

Module InventoryProduct.
(** An element of the jsonb column [Inventory.products]. *)
Record t := mk {
  productId : string;
  name : string;
  counted : Z;
  amountInDb : Z;
  reconciled : bool
}.
End InventoryProduct.

Module Inventory.
Record t := mk {
  outletId : string;
  products : list InventoryProduct.t;
  status : InventoryStatus.t;
  actionerId : option string;
  createdAt : Z
}.

(** The relations the entity declares: [outlet] and [actioner], both
    many-to-one.  [products] is a jsonb column of the row, not a relation. *)
Definition relations : list string := ["outlet"; "actioner"].
End Inventory.

(** ** The store *)

Record Store := mkStore {
  userRepository : gmap string User.t;
  outletRepository : gmap string Outlet.t;
  productRepository : gmap string Product.t;
  salesRepository : gmap string Sales.t;
  inventoryRepository : gmap string Inventory.t
}.

Definition setProducts (ps : gmap string Product.t) (st : Store) : Store :=
  mkStore (userRepository st) (outletRepository st) ps (salesRepository st)
          (inventoryRepository st).

Definition setSales (ss : gmap string Sales.t) (st : Store) : Store :=
  mkStore (userRepository st) (outletRepository st) (productRepository st) ss
          (inventoryRepository st).

Definition setInventories (invs : gmap string Inventory.t) (st : Store) : Store :=
  mkStore (userRepository st) (outletRepository st) (productRepository st)
          (salesRepository st) invs.

(** What the store generates when a row is inserted. *)
Record Generated := mkGenerated { newId : string; now : Z }.

(** An entity handed back by the store: its key and its row. *)
Definition Saved (A : Type) : Type := string * A.

(** [productRepository.findOneBy({ id, outletId })]: the row of that id, when
    its outlet is the one asked for.  The outlet asked for by [recordSale] is
    the nullable [outletId] of the sales person: the ORM leaves a property
    that is [null] out of the WHERE clause, so that for a user without outlet
    the row is found by its id alone. *)
Definition findProductInOutlet (ps : gmap string Product.t) (id : string)
    (outletId : option string) : option Product.t :=
  match outletId with
  | Some o =>
    match ps !! id with
    | Some p => if decide (Product.outletId p = o) then Some p else None
    | None => None
    end
  | None => ps !! id
  end.

Arguments findProductInOutlet : simpl never.

(** [productRepository.update(id, { quantity })]: an UPDATE by primary key,
    which changes nothing when no row has the key. *)
Definition updateQuantity (id : string) (q : Z) (ps : gmap string Product.t)
    : gmap string Product.t :=
  alter (Product.setQuantity q) id ps.

(** ** Request types: [validation/sales.validation.ts] and
    [validation/inventory.validation.ts] *)

Module SalesProductItemDto.
(** An element of [saleData.products]; validated with [quantity >= 1]. *)
Record t := mk { productId : string; quantity : Z }.
End SalesProductItemDto.

Module RecordSaleDto.
Record t := mk {
  products : list SalesProductItemDto.t;
  customer : option Customer.t;
  discount : option Z;
  amountPaid : Z;
  paymentChannel : PaymentChannel.t;
  status : option SalesStatus.t
}.
End RecordSaleDto.

Module InventoryProductItemDto.
(** An element of [productsData]; validated with [counted >= 0]. *)
Record t := mk { productId : string; counted : Z }.
End InventoryProductItemDto.

Module ReconciledProductItemDto.
(** An element of [reconciledProductsData]; validated with
    [reconciledQuantity >= 0]. *)
Record t := mk { productId : string; reconciledQuantity : Z }.
End ReconciledProductItemDto.

(** ** [SalesService] *)

Module SalesService.
Import SalesProductItemDto RecordSaleDto.

(** The body of [for (const item of saleData.products)], from the state the
    loop has reached: the product table, [totalAmount] and [salesProducts].
    A [throw] leaves the loop with the product table as it then is;
    [productRepository.save(product)] throws when the new quantity is no
    [int]. *)
Fixpoint recordSaleLoop (outletId : option string) (items : list SalesProductItemDto.t)
    (ps : gmap string Product.t) (totalAmount : Z)
    (salesProducts : list SalesProduct.t)
    : gmap string Product.t * Result (Z * list SalesProduct.t) :=
  match items with
  | [] => (ps, inr (totalAmount, salesProducts))
  | item :: rest =>
    match findProductInOutlet ps (productId item) outletId with
    | None =>
      (ps, inl (Api (mkApiError (ProductNotFoundInAssignedOutlet (productId item))
                                404)))
    | Some product =>
      if Product.quantity product <? quantity item then
        (ps, inl (Api (mkApiError
                         (InsufficientStockFor (Product.name product)
                                               (Product.quantity product)) 400)))
      else
        let salesProduct :=
          SalesProduct.mk (productId item) (Product.name product)
                          (quantity item) (Product.price product) in
        if intColumn (Product.quantity product - quantity item) then
          recordSaleLoop outletId rest
            (<[productId item :=
                 Product.setQuantity (Product.quantity product - quantity item)
                                     product]> ps)
            (totalAmount + Product.price product * quantity item)
            (salesProducts ++ [salesProduct])
        else
          (ps, inl (QueryFailedError "products"))
    end
  end.

(** [if (saleData.discount) totalAmount -= saleData.discount]: an absent
    discount and a discount of 0 are both falsy. *)
Definition applyDiscount (discount : option Z) (totalAmount : Z) : Z :=
  match discount with
  | Some d => if d =? 0 then totalAmount else totalAmount - d
  | None => totalAmount
  end.

(** The [status] column of an inserted sale: the value of the spread
    [...saleData] when the request has one, the column default
    [SalesStatus.COMPLETED] otherwise. *)
Definition insertedStatus (status : option SalesStatus.t) : SalesStatus.t :=
  default SalesStatus.COMPLETED status.

(** [salesRepository.save(newSale)] inserts the row of the sale and then, by
    cascade, its lines, in one transaction: when the sale or a line does not
    fit its columns the statement fails and nothing of the sale is stored.
    The stock taken by the loop stays taken. *)
Definition recordSale (g : Generated) (st : Store) (salesPersonId : string)
    (saleData : RecordSaleDto.t) : Store * Result (Saved Sales.t) :=
  match userRepository st !! salesPersonId with
  | None => (st, inl (Api (mkApiError SalesPersonNotFound 404)))
  | Some salesPerson =>
    match recordSaleLoop (User.outletId salesPerson) (products saleData)
                         (productRepository st) 0 [] with
    | (ps, inl e) => (setProducts ps st, inl e)
    | (ps, inr (total, salesProducts)) =>
      let totalAmount := applyDiscount (discount saleData) total in
      let newSale :=
        Sales.mk salesProducts totalAmount (discount saleData)
                 (insertedStatus (status saleData))
                 (totalAmount - amountPaid saleData)
                 (amountPaid saleData) (paymentChannel saleData)
                 (customer saleData) (Some salesPersonId) (now g) in
      if Sales.fits newSale then
        if forallb SalesProduct.fits salesProducts then
          (setSales (<[newId g := newSale]> (salesRepository st)) (setProducts ps st),
           inr (newId g, newSale))
        else
          (setProducts ps st, inl (QueryFailedError "sales_products"))
      else
        (setProducts ps st, inl (QueryFailedError "sales"))
    end
  end.

(** The re-stocking loop of [updateSaleStatus]: a product that is no longer
    in the table is skipped; [productRepository.save(product)] throws when
    the new quantity is no [int], and the loop ends there. *)
Fixpoint restock (salesProducts : list SalesProduct.t)
    (ps : gmap string Product.t) : gmap string Product.t * option Failure :=
  match salesProducts with
  | [] => (ps, None)
  | sp :: rest =>
    match ps !! SalesProduct.productId sp with
    | Some product =>
      if intColumn (Product.quantity product + SalesProduct.quantity sp) then
        restock rest
          (<[SalesProduct.productId sp :=
               Product.setQuantity (Product.quantity product + SalesProduct.quantity sp)
                                   product]> ps)
      else
        (ps, Some (QueryFailedError "products"))
    | None => restock rest ps
    end
  end.

Definition updateSaleStatus (st : Store) (saleId : string)
    (newStatus : SalesStatus.t) : Store * Result (Saved Sales.t) :=
  match salesRepository st !! saleId with
  | None => (st, inl (Api (mkApiError SaleRecordNotFound 404)))
  | Some sale =>
    if decide (Sales.status sale = newStatus) then
      (st, inr (saleId, sale))
    else if decide (newStatus ≠ SalesStatus.RETURNED) then
      (st, inl (Api (mkApiError OnlyReturnedSupported 400)))
    else
      let '(ps, thrown) :=
        if decide (newStatus = SalesStatus.RETURNED
                   ∧ Sales.status sale ≠ SalesStatus.RETURNED)
        then restock (Sales.products sale) (productRepository st)
        else (productRepository st, None) in
      match thrown with
      | Some failure => (setProducts ps st, inl failure)
      | None =>
        let updatedSale := Sales.setStatus newStatus sale in
        (setSales (<[saleId := updatedSale]> (salesRepository st)) (setProducts ps st),
         inr (saleId, updatedSale))
      end
  end.

End SalesService.

(** ** [InventoryService] *)

Module InventoryService.

(** The body of [for (const item of productsData)]: the product table is
    only read. *)
Fixpoint recordInventoryLoop (outletId : string)
    (productsData : list InventoryProductItemDto.t)
    (ps : gmap string Product.t)
    (inventoryProducts : list InventoryProduct.t)
    : Outcome (list InventoryProduct.t) :=
  match productsData with
  | [] => inr inventoryProducts
  | item :: rest =>
    match findProductInOutlet ps (InventoryProductItemDto.productId item)
                              (Some outletId) with
    | None =>
      inl (mkApiError
             (ProductNotFoundInOutlet (InventoryProductItemDto.productId item))
             404)
    | Some product =>
      recordInventoryLoop outletId rest ps
        (inventoryProducts ++
           [InventoryProduct.mk (InventoryProductItemDto.productId item)
                                (Product.name product)
                                (InventoryProductItemDto.counted item)
                                (Product.quantity product)
                                false])
    end
  end.

Definition recordInventory (g : Generated) (st : Store)
    (outletId actionerId : string)
    (productsData : list InventoryProductItemDto.t)
    : Store * Outcome (Saved Inventory.t) :=
  match outletRepository st !! outletId with
  | None => (st, inl (mkApiError OutletNotFound 404))
  | Some outlet =>
    match userRepository st !! actionerId with
    | None => (st, inl (mkApiError ActionerNotFound 404))
    | Some actioner =>
      match recordInventoryLoop outletId productsData (productRepository st) [] with
      | inl e => (st, inl e)
      | inr inventoryProducts =>
        let newInventory :=
          Inventory.mk outletId inventoryProducts InventoryStatus.PENDING
                       (Some actionerId) (now g) in
        (setInventories (<[newId g := newInventory]> (inventoryRepository st)) st,
         inr (newId g, newInventory))
      end
    end
  end.

(** [reconciledProductsData.find(rp => rp.productId === item.productId)]:
    the first entry of the request for the product of the line. *)
Definition findReconciled (reconciledProductsData : list ReconciledProductItemDto.t)
    (productId : string) : option ReconciledProductItemDto.t :=
  List.find
    (λ rp, bool_decide (ReconciledProductItemDto.productId rp = productId))
    reconciledProductsData.

(** [inventory.products.map(item => ...)]: the callback issues
    [productRepository.update] for a line the request names and returns the
    rewritten line.  The update is issued without [await]; it is written
    here as applied when issued.  [reconcileInventory] does not get to the
    callback. *)
Fixpoint reconcileLines (reconciledProductsData : list ReconciledProductItemDto.t)
    (items : list InventoryProduct.t) (ps : gmap string Product.t)
    : gmap string Product.t * list InventoryProduct.t :=
  match items with
  | [] => (ps, [])
  | item :: rest =>
    match findReconciled reconciledProductsData (InventoryProduct.productId item) with
    | Some reconciledItem =>
      let q := ReconciledProductItemDto.reconciledQuantity reconciledItem in
      let '(ps', updated) :=
        reconcileLines reconciledProductsData rest
          (updateQuantity (InventoryProduct.productId item) q ps) in
      (ps',
       InventoryProduct.mk (InventoryProduct.productId item)
                           (InventoryProduct.name item) q
                           (InventoryProduct.amountInDb item) true
       :: updated)
    | None =>
      let '(ps', updated) := reconcileLines reconciledProductsData rest ps in
      (ps', item :: updated)
    end
  end.

(** The first statement of [reconcileInventory] is
    [inventoryRepository.findOne({ where: { id }, relations: ['products'] })].
    The ORM resolves the names under [relations] against the relations of
    the entity before it queries, and throws when one is not among them; the
    rest of the method runs on the row the query then finds. *)
Definition reconcileInventory (st : Store) (inventoryId : string)
    (reconciledProductsData : list ReconciledProductItemDto.t)
    : Store * Result (Saved Inventory.t) :=
  if decide ("products" ∈ Inventory.relations) then
    match inventoryRepository st !! inventoryId with
    | None => (st, inl (Api (mkApiError InventoryRecordNotFound 404)))
    | Some inventory =>
      if decide (Inventory.status inventory = InventoryStatus.RECONCILED) then
        (st, inl (Api (mkApiError InventoryAlreadyReconciled 400)))
      else
        let '(ps, updatedProductsInInventory) :=
          reconcileLines reconciledProductsData (Inventory.products inventory)
                         (productRepository st) in
        let updatedInventory :=
          Inventory.mk (Inventory.outletId inventory) updatedProductsInInventory
                       InventoryStatus.RECONCILED
                       (Inventory.actionerId inventory)
                       (Inventory.createdAt inventory) in
        (setInventories (<[inventoryId := updatedInventory]> (inventoryRepository st))
                        (setProducts ps st),
         inr (inventoryId, updatedInventory))
    end
  else
    (st, inl (EntityPropertyNotFoundError "products")).

End InventoryService.

(** ** Scoped reads: [getAllSales] and [getAllInventories] *)

Module Requester.
(** [req.user] as the two list methods receive it. *)
Record t := mk {
  id : string;
  userType : string;
  businessId : option string;
  outletId : option string
}.
End Requester.

Inductive SortOrder := ASC | DESC.

Module PaginationOptions.
Record t := mk {
  page : option Z;
  limit : option Z;
  sortBy : option string;
  sortOrder : option SortOrder
}.
End PaginationOptions.

Module PaginatedResult.
Record t (A : Type) := mk {
  data : list A;
  totalItems : Z;
  totalPages : Z;
  currentPage : Z;
  itemsPerPage : Z
}.
Arguments mk {A}.
Arguments data {A}.
Arguments totalItems {A}.
Arguments totalPages {A}.
Arguments currentPage {A}.
Arguments itemsPerPage {A}.
End PaginatedResult.

Module DateRange.
Record t := mk { start : option Z; end_ : option Z }.
End DateRange.

Module SalesFilters.
Record t := mk {
  outletId : option string;
  businessId : option string;
  salesPersonId : option string;
  status : option string;
  paymentChannel : option string;
  search : option string;
  createdAt : option DateRange.t
}.
End SalesFilters.

Module InventoryFilters.
Record t := mk {
  outletId : option string;
  businessId : option string;
  status : option string;
  actionerId : option string;
  search : option string;
  createdAt : option DateRange.t
}.
End InventoryFilters.

(** The comparison [column = :parameter] of a WHERE clause: it holds of no row
    when the column is NULL or the parameter is missing. *)
Definition sqlEq (column parameter : option string) : bool :=
  match column, parameter with
  | Some c, Some v => bool_decide (c = v)
  | _, _ => false
  end.

(** [if (filters.f) queryBuilder.andWhere(...)]: a missing or empty string is
    falsy and adds no condition. *)
Definition whenSet (f : option string) (condition : string → bool) : bool :=
  match f with
  | Some v => if decide (v = "") then true else condition v
  | None => true
  end.

(** [if (filters.createdAt?.start)] and [if (filters.createdAt?.end)]. *)
Definition inDateRange (r : option DateRange.t) (createdAt : Z) : bool :=
  match r with
  | Some r =>
    match DateRange.start r with Some s => s <=? createdAt | None => true end
    && match DateRange.end_ r with Some e => createdAt <=? e | None => true end
  | None => true
  end.

(** [Math.ceil(totalItems / limit)] for a limit other than 0. *)
Definition ceilDiv (totalItems limit : Z) : Z := - ((- totalItems) / limit).

Section ScopedReads.

(** The ILIKE condition of the [search] filter, as the database evaluates it
    on a joined row, and the ORDER BY of the query on a column and a
    direction. *)
Variable searchSales : string → Saved Sales.t → bool.
Variable searchInventories : string → Saved Inventory.t → bool.
Variable orderSales :
  string → SortOrder → list (Saved Sales.t) → list (Saved Sales.t).
Variable orderInventories :
  string → SortOrder → list (Saved Inventory.t) → list (Saved Inventory.t).

(** The left join [sales.salesPerson]. *)
Definition salesPersonOf (st : Store) (sale : Sales.t) : option User.t :=
  Sales.salesPersonId sale ≫= λ u, userRepository st !! u.

(** The left join [inventory.outlet]. *)
Definition outletOf (st : Store) (inventory : Inventory.t) : option Outlet.t :=
  outletRepository st !! Inventory.outletId inventory.

(** The RBAC restriction of [getAllSales]. *)
Definition salesScope (st : Store) (requester : Requester.t)
    (row : Saved Sales.t) : bool :=
  if decide (Requester.userType requester = "owner") then
    sqlEq (salesPersonOf st row.2 ≫= User.businessId)
          (Requester.businessId requester)
  else if decide (Requester.userType requester = "store_executive") then
    sqlEq (salesPersonOf st row.2 ≫= User.outletId)
          (Requester.outletId requester)
  else if decide (Requester.userType requester = "sales_rep") then
    sqlEq (Sales.salesPersonId row.2) (Some (Requester.id requester))
  else true.

(** The caller-supplied filters of [getAllSales]. *)
Definition salesFilter (st : Store) (filters : SalesFilters.t)
    (row : Saved Sales.t) : bool :=
  whenSet (SalesFilters.outletId filters)
          (λ v, sqlEq (salesPersonOf st row.2 ≫= User.outletId) (Some v))
  && whenSet (SalesFilters.businessId filters)
          (λ v, sqlEq (salesPersonOf st row.2 ≫= User.businessId) (Some v))
  && whenSet (SalesFilters.salesPersonId filters)
          (λ v, sqlEq (Sales.salesPersonId row.2) (Some v))
  && whenSet (SalesFilters.status filters)
          (λ v, bool_decide (SalesStatus.value (Sales.status row.2) = v))
  && whenSet (SalesFilters.paymentChannel filters)
          (λ v, bool_decide (PaymentChannel.value (Sales.paymentChannel row.2) = v))
  && whenSet (SalesFilters.search filters) (λ v, searchSales v row)
  && inDateRange (SalesFilters.createdAt filters) (Sales.createdAt row.2).

Definition getAllSales (st : Store) (requester : Requester.t)
    (filters : SalesFilters.t) (pagination : PaginationOptions.t)
    : PaginatedResult.t (Saved Sales.t) :=
  let page := default 1 (PaginationOptions.page pagination) in
  let limit := default 20 (PaginationOptions.limit pagination) in
  let sortBy := default "createdAt" (PaginationOptions.sortBy pagination) in
  let sortOrder := default DESC (PaginationOptions.sortOrder pagination) in
  let offset := (page - 1) * limit in
  let matching :=
    List.filter (λ row, salesScope st requester row && salesFilter st filters row)
                (map_to_list (salesRepository st)) in
  let sales :=
    take (Z.to_nat limit) (drop (Z.to_nat offset) (orderSales sortBy sortOrder matching)) in
  let totalItems := Z.of_nat (length matching) in
  PaginatedResult.mk sales totalItems (ceilDiv totalItems limit) page limit.

(** The RBAC restriction of [getAllInventories]. *)
Definition inventoryScope (st : Store) (requester : Requester.t)
    (row : Saved Inventory.t) : bool :=
  if decide (Requester.userType requester = "owner") then
    sqlEq (Outlet.businessId <$> outletOf st row.2)
          (Requester.businessId requester)
  else if decide (Requester.userType requester = "store_executive"
                  ∨ Requester.userType requester = "sales_rep") then
    sqlEq (Some (Inventory.outletId row.2)) (Requester.outletId requester)
  else true.

(** The caller-supplied filters of [getAllInventories]. *)
Definition inventoryFilter (st : Store) (filters : InventoryFilters.t)
    (row : Saved Inventory.t) : bool :=
  whenSet (InventoryFilters.outletId filters)
          (λ v, sqlEq (Some (Inventory.outletId row.2)) (Some v))
  && whenSet (InventoryFilters.businessId filters)
          (λ v, sqlEq (Outlet.businessId <$> outletOf st row.2) (Some v))
  && whenSet (InventoryFilters.status filters)
          (λ v, bool_decide (InventoryStatus.value (Inventory.status row.2) = v))
  && whenSet (InventoryFilters.actionerId filters)
          (λ v, sqlEq (Inventory.actionerId row.2) (Some v))
  && whenSet (InventoryFilters.search filters) (λ v, searchInventories v row)
  && inDateRange (InventoryFilters.createdAt filters) (Inventory.createdAt row.2).

Definition getAllInventories (st : Store) (requester : Requester.t)
    (filters : InventoryFilters.t) (pagination : PaginationOptions.t)
    : PaginatedResult.t (Saved Inventory.t) :=
  let page := default 1 (PaginationOptions.page pagination) in
  let limit := default 20 (PaginationOptions.limit pagination) in
  let sortBy := default "createdAt" (PaginationOptions.sortBy pagination) in
  let sortOrder := default DESC (PaginationOptions.sortOrder pagination) in
  let offset := (page - 1) * limit in
  let matching :=
    List.filter
      (λ row, inventoryScope st requester row && inventoryFilter st filters row)
      (map_to_list (inventoryRepository st)) in
  let inventories :=
    take (Z.to_nat limit)
         (drop (Z.to_nat offset) (orderInventories sortBy sortOrder matching)) in
  let totalItems := Z.of_nat (length matching) in
  PaginatedResult.mk inventories totalItems (ceilDiv totalItems limit) page limit.

End ScopedReads.

(** ** Measures used by the statements *)

(** [product.quantity += d] on a row. *)
Definition adjust (d : Z) (p : Product.t) : Product.t :=
  Product.setQuantity (Product.quantity p + d) p.

(** The number of units of product [k] asked for by the lines of a request. *)
Fixpoint sold (k : string) (items : list SalesProductItemDto.t) : Z :=
  match items with
  | [] => 0
  | item :: rest =>
    (if decide (SalesProductItemDto.productId item = k)
     then SalesProductItemDto.quantity item else 0) + sold k rest
  end.

(** The number of units of product [k] on the lines of a stored sale. *)
Fixpoint returned (k : string) (lines : list SalesProduct.t) : Z :=
  match lines with
  | [] => 0
  | sp :: rest =>
    (if decide (SalesProduct.productId sp = k)
     then SalesProduct.quantity sp else 0) + returned k rest
  end.

(** Σ (line.quantity × line.priceAtSale). *)
Fixpoint linesTotal (lines : list SalesProduct.t) : Z :=
  match lines with
  | [] => 0
  | sp :: rest =>
    SalesProduct.quantity sp * SalesProduct.priceAtSale sp + linesTotal rest
  end.

(** A stored line is the snapshot of a request line against a product table. *)
Definition lineOf (ps : gmap string Product.t) (item : SalesProductItemDto.t)
    (sp : SalesProduct.t) : Prop :=
  SalesProduct.productId sp = SalesProductItemDto.productId item
  ∧ SalesProduct.quantity sp = SalesProductItemDto.quantity item
  ∧ ∃ p, ps !! SalesProductItemDto.productId item = Some p
         ∧ SalesProduct.priceAtSale sp = Product.price p
         ∧ SalesProduct.productName sp = Product.name p.





(** A stored inventory line is the snapshot of a count against a product
    table: the submitted count, the quantity on record, not yet reconciled. *)
Definition snapshotOf (ps : gmap string Product.t)
    (item : InventoryProductItemDto.t) (line : InventoryProduct.t) : Prop :=
  InventoryProduct.productId line = InventoryProductItemDto.productId item
  ∧ InventoryProduct.counted line = InventoryProductItemDto.counted item
  ∧ InventoryProduct.reconciled line = false
  ∧ ∃ p, ps !! InventoryProductItemDto.productId item = Some p
         ∧ InventoryProduct.amountInDb line = Product.quantity p
         ∧ InventoryProduct.name line = Product.name p.

(** ** The exposed mutating operations as steps on the store *)

Inductive Op :=
| RecordSale (g : Generated) (salesPersonId : string) (saleData : RecordSaleDto.t)
| UpdateSaleStatus (saleId : string) (newStatus : SalesStatus.t)
| RecordInventory (g : Generated) (outletId actionerId : string)
                  (productsData : list InventoryProductItemDto.t)
| ReconcileInventory (inventoryId : string)
                     (reconciledProductsData : list ReconciledProductItemDto.t).

(** The store an operation leaves, whether it returns or throws. *)
Definition exec (st : Store) (op : Op) : Store :=
  match op with
  | RecordSale g salesPersonId saleData =>
    (SalesService.recordSale g st salesPersonId saleData).1
  | UpdateSaleStatus saleId newStatus =>
    (SalesService.updateSaleStatus st saleId newStatus).1
  | RecordInventory g outletId actionerId productsData =>
    (InventoryService.recordInventory g st outletId actionerId productsData).1
  | ReconcileInventory inventoryId reconciledProductsData =>
    (InventoryService.reconcileInventory st inventoryId reconciledProductsData).1
  end.

(** The validated preconditions on the requests: [@Min(1)] on the quantity of
    a sale line, [@Min(0)] on a reconciled quantity. *)
Definition validated (op : Op) : Prop :=
  match op with
  | RecordSale _ _ saleData =>
    Forall (λ item, 1 ≤ SalesProductItemDto.quantity item)
           (RecordSaleDto.products saleData)
  | ReconcileInventory _ reconciledProductsData =>
    Forall (λ rp, 0 ≤ ReconciledProductItemDto.reconciledQuantity rp)
           reconciledProductsData
  | UpdateSaleStatus _ _ | RecordInventory _ _ _ _ => True
  end.

(** Every product has a quantity of at least 0. *)
Definition stockNonNegative (ps : gmap string Product.t) : Prop :=
  map_Forall (λ _ p, 0 ≤ Product.quantity p) ps.

(** Every product holds a quantity of its column. *)
Definition stockInRange (ps : gmap string Product.t) : Prop :=
  map_Forall (λ _ p, intColumn (Product.quantity p) = true) ps.

(** No stored sale line has a negative quantity. *)
Definition linesNonNegative (ss : gmap string Sales.t) : Prop :=
  map_Forall
    (λ _ sale, Forall (λ sp, 0 ≤ SalesProduct.quantity sp) (Sales.products sale))
    ss.

(** ** Scenarios of the ledger *)

Module Scenario.
Definition rep : User.t := User.mk "rep@shop.test" "sales_rep" (Some "b1") (Some "o1").
Definition P : Product.t := Product.mk "Pen" 500 10 10 "o1" "b1".
Definition Q : Product.t := Product.mk "Quill" 250 1 10 "o1" "b1".

Definition store0 : Store :=
  mkStore {[ "u1" := rep ]}
          {[ "o1" := Outlet.mk "Main" "b1" ]}
          (<[ "p" := P ]> {[ "q" := Q ]})
          ∅ ∅.

Definition g1 : Generated := mkGenerated "s1" 1000.
Definition g2 : Generated := mkGenerated "i1" 2000.

(** Scenario 1 of the ledger: three pens, discount 2.00, paid 13.00. *)
Definition sale1 : RecordSaleDto.t :=
  RecordSaleDto.mk [SalesProductItemDto.mk "p" 3] None (Some 200) 1300
                   PaymentChannel.CASH None.

(** Two lines, the second asking for more quills than the one in stock. *)
Definition sale2 : RecordSaleDto.t :=
  RecordSaleDto.mk [SalesProductItemDto.mk "p" 3; SalesProductItemDto.mk "q" 2]
                   None None 0 PaymentChannel.CASH None.

(** A sale recorded with an explicit status. *)
Definition sale3 : RecordSaleDto.t :=
  RecordSaleDto.mk [SalesProductItemDto.mk "p" 3] None None 1500
                   PaymentChannel.CARD (Some SalesStatus.RETURNED).

(** Scenario 3 of the ledger: a count of eight pens, then its
    reconciliation. *)
Definition count1 : list InventoryProductItemDto.t :=
  [InventoryProductItemDto.mk "p" 8].
Definition reconcile1 : list ReconciledProductItemDto.t :=
  [ReconciledProductItemDto.mk "p" 8].

(** A second outlet with its own representative, and a store executive of
    the first outlet. *)
Definition rep2 : User.t :=
  User.mk "rep2@shop.test" "sales_rep" (Some "b1") (Some "o2").
Definition R : Product.t := Product.mk "Ruler" 300 5 10 "o2" "b1".

Definition store3 : Store :=
  mkStore (<[ "u2" := rep2 ]> {[ "u1" := rep ]})
          (<[ "o2" := Outlet.mk "Annex" "b1" ]> {[ "o1" := Outlet.mk "Main" "b1" ]})
          (<[ "r" := R ]> (<[ "p" := P ]> {[ "q" := Q ]}))
          ∅ ∅.

Definition sale4 : RecordSaleDto.t :=
  RecordSaleDto.mk [SalesProductItemDto.mk "r" 1] None None 300
                   PaymentChannel.CASH None.

(** One sale by each representative and one count in each outlet. *)
Definition store4 : Store :=
  foldl exec store3
    [RecordSale g1 "u1" sale1;
     RecordSale (mkGenerated "s2" 1100) "u2" sale4;
     RecordInventory g2 "o1" "u1" count1;
     RecordInventory (mkGenerated "i2" 2100) "o2" "u2"
                     [InventoryProductItemDto.mk "r" 5]].

Definition asRep : Requester.t :=
  Requester.mk "u1" "sales_rep" (Some "b1") (Some "o1").
Definition asExecutive : Requester.t :=
  Requester.mk "u9" "store_executive" (Some "b1") (Some "o1").

Definition noSalesFilters : SalesFilters.t :=
  SalesFilters.mk None None None None None None None.
Definition noInventoryFilters : InventoryFilters.t :=
  InventoryFilters.mk None None None None None None.
Definition firstPage : PaginationOptions.t :=
  PaginationOptions.mk None None None None.

(** The ORDER BY of the scenarios, [ORDER BY createdAt] in the direction
    asked: the scenarios sort on [createdAt], the default of [sortBy], and
    leave the rows as they are listed for another column. *)
Definition earlierSale (o : SortOrder) (a b : Saved Sales.t) : Prop :=
  match o with
  | ASC => Sales.createdAt a.2 ≤ Sales.createdAt b.2
  | DESC => Sales.createdAt b.2 ≤ Sales.createdAt a.2
  end.
Definition earlierInventory (o : SortOrder) (a b : Saved Inventory.t) : Prop :=
  match o with
  | ASC => Inventory.createdAt a.2 ≤ Inventory.createdAt b.2
  | DESC => Inventory.createdAt b.2 ≤ Inventory.createdAt a.2
  end.

#[global] Instance earlierSale_dec o : RelDecision (earlierSale o).
Proof. intros a b. unfold earlierSale. destruct o; apply _. Defined.
#[global] Instance earlierInventory_dec o : RelDecision (earlierInventory o).
Proof. intros a b. unfold earlierInventory. destruct o; apply _. Defined.

Definition salesByDate (c : string) (o : SortOrder)
    (l : list (Saved Sales.t)) : list (Saved Sales.t) :=
  if decide (c = "createdAt") then merge_sort (earlierSale o) l else l.
Definition inventoriesByDate (c : string) (o : SortOrder)
    (l : list (Saved Inventory.t)) : list (Saved Inventory.t) :=
  if decide (c = "createdAt") then merge_sort (earlierInventory o) l else l.
Definition searchAll {A} (pattern : string) (row : A) : bool := true.

Definition store1 : Store :=
  (InventoryService.recordInventory g2 store0 "o1" "u1" count1).1.


(** A store whose sale "s0" has a line of -5 quills. *)
Definition store5 : Store :=
  mkStore {[ "u1" := rep ]}
          {[ "o1" := Outlet.mk "Main" "b1" ]}
          {[ "q" := Q ]}
          {[ "s0" := Sales.mk [SalesProduct.mk "q" "Quill" (-5) 250] (-1250) None
                              SalesStatus.COMPLETED (-1250) 0 PaymentChannel.CASH
                              None (Some "u1") 900 ]}
          ∅.





(** A store whose sale "s0" has five pens, with nearly as many pens in stock
    as the column holds. *)
Definition store7 : Store :=
  mkStore {[ "u1" := rep ]}
          {[ "o1" := Outlet.mk "Main" "b1" ]}
          {[ "p" := Product.mk "Pen" 500 2147483645 10 "o1" "b1" ]}
          {[ "s0" := Sales.mk [SalesProduct.mk "p" "Pen" 5 500] 2500 None
                              SalesStatus.COMPLETED 0 2500 PaymentChannel.CASH
                              None (Some "u1") 900 ]}
          ∅.
End Scenario.

(** ** Single reads, their controllers and the route guards

    [SalesService.getSaleById], [InventoryService.getInventoryById], the
    controllers that call them ([controllers/sales.controller.ts],
    [controllers/inventory.controller.ts]) and the guards the routes put in
    front of the controllers ([middleware/rbac.middleware.ts]). *)

(** The values the strict comparisons of the controllers meet: a nullable
    column read from the store is [null] or a string, and a property read
    through [?.] on a relation that is not there is [undefined].  The
    [businessId] and [outletId] of [req.user] are such columns: [protect]
    copies them from the user's row. *)
Inductive JsValue := undefined | null | str (s : string).

#[global] Instance JsValue_eq_dec : EqDecision JsValue.
Proof. solve_decision. Defined.

Definition column (o : option string) : JsValue :=
  match o with Some s => str s | None => null end.

(** [relation?.property] for a nullable column of the related row. *)
Definition optionalChain {A} (relation : option A) (property : A → option string)
    : JsValue :=
  match relation with Some r => column (property r) | None => undefined end.

(** What a guard or a controller passes to [next] when it refuses. *)
Inductive DenialMessage :=
| NoPermission
| OutletIdRequired
| NotAuthorizedForOutlet
| OnlySalesRepresentatives
| NotAuthorizedToViewSale
| NotAuthorizedToViewInventory.

(** The error a handler ends with: one thrown by a service, or one of its
    own. *)
Inductive HandlerError :=
| Thrown (e : ApiError)
| Denied (m : DenialMessage) (statusCode : Z).

(** A sale with its [salesPerson] relation loaded. *)
Definition getSaleById (st : Store) (saleId : string)
    : Outcome (Saved Sales.t * option User.t) :=
  match salesRepository st !! saleId with
  | None => inl (mkApiError SaleRecordNotFound 404)
  | Some sale => inr ((saleId, sale), salesPersonOf st sale)
  end.

(** An inventory record with its [outlet] relation loaded. *)
Definition getInventoryById (st : Store) (inventoryId : string)
    : Outcome (Saved Inventory.t * option Outlet.t) :=
  match inventoryRepository st !! inventoryId with
  | None => inl (mkApiError InventoryRecordNotFound 404)
  | Some inventory => inr ((inventoryId, inventory), outletOf st inventory)
  end.

Module SalesController.
(** [getSaleById]: the sale, or the 403 of the first role check that
    fails. *)
Definition getSaleById (st : Store) (user : Requester.t) (saleId : string)
    : HandlerError + Saved Sales.t :=
  match getSaleById st saleId with
  | inl e => inl (Thrown e)
  | inr (sale, salesPerson) =>
    if decide (Requester.userType user = "owner"
               ∧ optionalChain salesPerson User.businessId
                 ≠ column (Requester.businessId user)) then
      inl (Denied NotAuthorizedToViewSale 403)
    else if decide (Requester.userType user = "store_executive"
                    ∧ optionalChain salesPerson User.outletId
                      ≠ column (Requester.outletId user)) then
      inl (Denied NotAuthorizedToViewSale 403)
    else if decide (Requester.userType user = "sales_rep"
                    ∧ column (Sales.salesPersonId sale.2)
                      ≠ str (Requester.id user)) then
      inl (Denied NotAuthorizedToViewSale 403)
    else inr sale
  end.
End SalesController.

Module InventoryController.
(** [getInventoryById]: the record, or the 403 of the first role check that
    fails. *)
Definition getInventoryById (st : Store) (user : Requester.t)
    (inventoryId : string) : HandlerError + Saved Inventory.t :=
  match getInventoryById st inventoryId with
  | inl e => inl (Thrown e)
  | inr (inventory, outlet) =>
    if decide (Requester.userType user = "owner"
               ∧ optionalChain outlet (λ o, Some (Outlet.businessId o))
                 ≠ column (Requester.businessId user)) then
      inl (Denied NotAuthorizedToViewInventory 403)
    else if decide ((Requester.userType user = "store_executive"
                     ∨ Requester.userType user = "sales_rep")
                    ∧ str (Inventory.outletId inventory.2)
                      ≠ column (Requester.outletId user)) then
      inl (Denied NotAuthorizedToViewInventory 403)
    else inr inventory
  end.
End InventoryController.

Module UserRole.
Definition ADMIN : string := "admin".
Definition OWNER : string := "owner".
Definition STORE_EXECUTIVE : string := "store_executive".
Definition SALES_REP : string := "sales_rep".
End UserRole.

Module Request.
(** What the guards read of a request: the authenticated user and the outlet
    id of the route parameters and of the body. *)
Record t := mk {
  user : option Requester.t;
  paramsOutletId : option string;
  bodyOutletId : option string
}.
End Request.

(** The outcome of a middleware: [next()] or [next(error)]. *)
Inductive Guard := next | refuse (m : DenialMessage) (statusCode : Z).

(** A string that is neither missing nor empty, as [if (s)] and [!s] see
    it. *)
Definition truthy (a : option string) : option string :=
  match a with
  | Some s => if decide (s = "") then None else Some s
  | None => None
  end.

(** [a || b] on strings that may be missing: [a] when it is truthy, [b]
    otherwise. *)
Definition orElse (a b : option string) : option string :=
  match truthy a with
  | Some s => Some s
  | None => b
  end.

Definition authorize (roles : list string) (req : Request.t) : Guard :=
  match Request.user req with
  | None => refuse NoPermission 403
  | Some user =>
    if decide (Requester.userType user ∈ roles) then next
    else refuse NoPermission 403
  end.

Definition isStoreExecutiveOfOutlet (req : Request.t) : Guard :=
  let userType := Requester.userType <$> Request.user req in
  if decide (userType = Some UserRole.ADMIN ∨ userType = Some UserRole.OWNER)
  then next
  else
    match truthy (orElse (orElse (Request.paramsOutletId req)
                                 (Request.bodyOutletId req))
                         (Request.user req ≫= Requester.outletId)) with
    | None => refuse OutletIdRequired 400
    | Some outletId =>
      if decide (userType = Some UserRole.STORE_EXECUTIVE
                 ∧ (Request.user req ≫= Requester.outletId) = Some outletId)
      then next
      else refuse NotAuthorizedForOutlet 403
    end.

Definition isSalesRepresentative (req : Request.t) : Guard :=
  if decide (Requester.userType <$> Request.user req = Some UserRole.SALES_REP)
  then next
  else refuse OnlySalesRepresentatives 403.

(** The guards of a route, run in order up to the first that refuses. *)
Fixpoint guards (chain : list (Request.t → Guard)) (req : Request.t) : Guard :=
  match chain with
  | [] => next
  | guard :: rest =>
    match guard req with
    | next => guards rest req
    | refuse m c => refuse m c
    end
  end.

(** The guards of [POST /outlets/:outletId/inventories] and of
    [GET /sales-rep/products/available]. *)
Definition recordInventoryRoute : list (Request.t → Guard) :=
  [authorize [UserRole.ADMIN; UserRole.OWNER; UserRole.STORE_EXECUTIVE;
              UserRole.SALES_REP];
   isStoreExecutiveOfOutlet].

Definition salesRepAvailableProductsRoute : list (Request.t → Guard) :=
  [authorize [UserRole.SALES_REP; UserRole.STORE_EXECUTIVE; UserRole.OWNER;
              UserRole.ADMIN];
   isStoreExecutiveOfOutlet].

(** ** The key of a cached response: [middleware/cache.middleware.ts] *)

Module CacheMiddleware.

(** The options the key depends on, with their defaults [varyBy = []] and
    [userSpecific = false]. *)
Record Options := mkOptions { varyBy : list string; userSpecific : bool }.

Definition defaults : Options := mkOptions [] false.

(** [parts.join(separator)]. *)
Fixpoint join (separator : string) (parts : list string) : string :=
  match parts with
  | [] => ""
  | [part] => part
  | part :: rest => part +:+ separator +:+ join separator rest
  end.

(** The key the middleware computes when no [keyGenerator] is given: the
    method and the URL, one part per header of [varyBy], and the user's id
    when the cache is user-specific and the request has a user; the empty
    parts are dropped and the rest joined by a bar. *)
Definition cacheKey (options : Options) (method originalUrl : string)
    (headers : gmap string string) (user : option Requester.t) : string :=
  let baseKey := method +:+ ":" +:+ originalUrl in
  let varyParts :=
    (λ header, header +:+ ":" +:+ default "none" (truthy (headers !! header)))
      <$> varyBy options in
  let userPart :=
    match user with
    | Some u => if userSpecific options then "user:" +:+ Requester.id u else ""
    | None => ""
    end in
  join "|" (List.filter (λ part, bool_decide (part ≠ ""))
                        (baseKey :: varyParts ++ [userPart])).

End CacheMiddleware.

(** ** Stock figures of the dashboard: [DashboardService] *)

Module DashboardService.




End DashboardService.

(** The ids an operation has the store generate. *)
Definition generatedSaleId (op : Op) : option string :=
  match op with RecordSale g _ _ => Some (newId g) | _ => None end.

Definition generatedInventoryId (op : Op) : option string :=
  match op with RecordInventory g _ _ _ => Some (newId g) | _ => None end.



(** ** Stock arithmetic on a row *)

Lemma adjust_0 p : adjust 0 p = p.
Proof. destruct p; unfold adjust, Product.setQuantity; simpl; f_equal; lia. Qed.

Lemma adjust_adjust a b p : adjust a (adjust b p) = adjust (b + a) p.
Proof. unfold adjust, Product.setQuantity; simpl; f_equal; lia. Qed.

Lemma setQuantity_adjust q p :
  Product.setQuantity q p = adjust (q - Product.quantity p) p.
Proof. unfold adjust, Product.setQuantity; simpl; f_equal; lia. Qed.

Lemma findProductInOutlet_Some ps id o p :
  findProductInOutlet ps id o = Some p →
  ps !! id = Some p ∧ ∀ o', o = Some o' → Product.outletId p = o'.
Proof.
  unfold findProductInOutlet. destruct o as [o|].
  - destruct (ps !! id) as [p'|]; [|discriminate].
    case_decide; [|discriminate]. intros [= ->]. split; [done|]. by intros ? [= <-].
  - intros Hp. split; [done|]. intros ? [=].
Qed.

Lemma intColumn_true v :
  intColumn v = true ↔ -2147483648 ≤ v ≤ 2147483647.
Proof. unfold intColumn. rewrite andb_true_iff, !Z.leb_le. done. Qed.

(** ** The selling loop *)

Section RecordSaleLoop.
Import SalesService.

(** A completed run of the loop has taken from every product what the lines
    ask of it. *)
Lemma recordSaleLoop_products outlet items : ∀ ps t ls ps' t' ls',
  recordSaleLoop outlet items ps t ls = (ps', inr (t', ls')) →
  ∀ k, ps' !! k = adjust (- sold k items) <$> ps !! k.
Proof.
  induction items as [|item rest IH]; intros ps t ls ps' t' ls' Hrun k; simpl in *.
  - injection Hrun as <- _ _. destruct (ps !! k) as [p|]; simpl; [|done].
    by rewrite adjust_0.
  - destruct (findProductInOutlet ps _ outlet) as [product|] eqn:Hfind; [|done].
    apply findProductInOutlet_Some in Hfind as [Hp _].
    destruct (Product.quantity product <? _); [done|].
    destruct (intColumn _); [|done].
    rewrite (IH _ _ _ _ _ _ Hrun k). case_decide as Hk.
    + subst k. rewrite lookup_insert_eq, Hp. simpl. f_equal.
      rewrite setQuantity_adjust, adjust_adjust. f_equal. simpl. lia.
    + rewrite lookup_insert_ne by done. by rewrite Z.add_0_l.
Qed.

(** The lines and the total a completed run has accumulated. *)
Lemma recordSaleLoop_lines outlet items : ∀ ps t ls ps' t' ls',
  recordSaleLoop outlet items ps t ls = (ps', inr (t', ls')) →
  ∃ new, ls' = ls ++ new
         ∧ t' = t + linesTotal new
         ∧ Forall2 (lineOf ps) items new.
Proof.
  induction items as [|item rest IH]; intros ps t ls ps' t' ls' Hrun; simpl in *.
  - injection Hrun as _ <- <-. exists []. rewrite app_nil_r. simpl.
    split_and!; [done|lia|constructor].
  - destruct (findProductInOutlet ps _ outlet) as [product|] eqn:Hfind; [|done].
    apply findProductInOutlet_Some in Hfind as [Hp _].
    destruct (Product.quantity product <? _); [done|].
    destruct (intColumn _); [|done].
    destruct (IH _ _ _ _ _ _ Hrun) as (new & -> & -> & Hall).
    eexists (_ :: new). split_and!.
    + by rewrite <- app_assoc.
    + simpl. lia.
    + constructor.
      * unfold lineOf; simpl. split_and!; [done..|]. by exists product.
      * eapply Forall2_impl; [exact Hall|].
        intros it sp (? & ? & p & Hlk & ? & ?). split_and!; [done..|].
        destruct (decide (SalesProductItemDto.productId item
                          = SalesProductItemDto.productId it)) as [Heq|Hne].
        -- rewrite <- Heq in *. rewrite lookup_insert_eq in Hlk.
           injection Hlk as <-. by exists product.
        -- rewrite lookup_insert_ne in Hlk by done. by exists p.
Qed.

(** Running the loop over a list of lines is running it over a first part
    and then, when that part completes, over what follows. *)
Lemma recordSaleLoop_app outlet before more : ∀ ps t ls ps1 t1 ls1,
  recordSaleLoop outlet before ps t ls = (ps1, inr (t1, ls1)) →
  recordSaleLoop outlet (before ++ more) ps t ls
  = recordSaleLoop outlet more ps1 t1 ls1.
Proof.
  induction before as [|item rest IH]; intros ps t ls ps1 t1 ls1 Hrun; simpl in *.
  - by injection Hrun as <- <- <-.
  - destruct (findProductInOutlet ps _ outlet) as [product|]; [|done].
    destruct (Product.quantity product <? _); [done|].
    destruct (intColumn _); [|done]. by apply IH.
Qed.

(** Every quantity a run of the loop writes is a quantity of the column. *)
Lemma recordSaleLoop_inRange outlet items : ∀ ps t ls,
  stockInRange ps → stockInRange (recordSaleLoop outlet items ps t ls).1.
Proof.
  induction items as [|item rest IH]; intros ps t ls Hps; simpl; [done|].
  destruct (findProductInOutlet ps _ outlet) as [product|]; [|done].
  destruct (Product.quantity product <? _); [done|].
  destruct (intColumn _) eqn:Hfits; [|done].
  apply IH. by apply map_Forall_insert_2.
Qed.

End RecordSaleLoop.

(** ** The re-stocking loop *)

(** A run of the loop that completes has added to every product what the
    lines carry of it; a run that throws stopped at a line whose product
    cannot hold the sum, after the lines before it were added. *)
Lemma restock_products lines : ∀ ps ps' thrown,
  SalesService.restock lines ps = (ps', thrown) →
  match thrown with
  | None => ∀ k, ps' !! k = adjust (returned k lines) <$> ps !! k
  | Some failure =>
    failure = QueryFailedError "products"
    ∧ ∃ before sp rest p,
        lines = before ++ sp :: rest
        ∧ (∀ k, ps' !! k = adjust (returned k before) <$> ps !! k)
        ∧ ps' !! SalesProduct.productId sp = Some p
        ∧ intColumn (Product.quantity p + SalesProduct.quantity sp) = false
  end.
Proof.
  assert (Hnil : ∀ (ps : gmap string Product.t) k, ps !! k = adjust 0 <$> ps !! k).
  { intros ps k. destruct (ps !! k); simpl; [|done]. by rewrite adjust_0. }
  induction lines as [|sp rest IH]; intros ps ps' thrown Hrun; simpl in *.
  - injection Hrun as <- <-. apply Hnil.
  - destruct (ps !! SalesProduct.productId sp) as [product|] eqn:Hp.
    + destruct (intColumn _) eqn:Hfits.
      * specialize (IH _ _ _ Hrun).
        assert (Hstep : ∀ k d,
                  adjust d <$> <[SalesProduct.productId sp :=
                       Product.setQuantity
                         (Product.quantity product + SalesProduct.quantity sp)
                         product]> ps !! k
                  = adjust ((if decide (SalesProduct.productId sp = k)
                             then SalesProduct.quantity sp else 0) + d) <$> ps !! k).
        { intros k d. case_decide as Hk.
          - subst k. rewrite lookup_insert_eq, Hp. simpl. f_equal.
            rewrite setQuantity_adjust, adjust_adjust. f_equal. lia.
          - rewrite lookup_insert_ne by done. by rewrite Z.add_0_l. }
        destruct thrown as [failure|].
        -- destruct IH as (-> & before & sp' & rest' & p & -> & Hps & Hsp & Hout).
           split; [done|]. exists (sp :: before), sp', rest', p.
           split_and!; [done| |done..]. intros k. rewrite Hps. simpl. apply Hstep.
        -- intros k. rewrite IH. apply Hstep.
      * injection Hrun as <- <-. split; [done|].
        exists [], sp, rest, product. split_and!; [done|apply Hnil|done..].
    + specialize (IH _ _ _ Hrun).
      assert (Hstep : ∀ k d,
                adjust d <$> ps !! k
                = adjust ((if decide (SalesProduct.productId sp = k)
                           then SalesProduct.quantity sp else 0) + d) <$> ps !! k).
      { intros k d. case_decide as Hk; [subst k; by rewrite Hp|by rewrite Z.add_0_l]. }
      destruct thrown as [failure|].
      * destruct IH as (-> & before & sp' & rest' & p & -> & Hps & Hsp & Hout).
        split; [done|]. exists (sp :: before), sp', rest', p.
        split_and!; [done| |done..]. intros k. rewrite Hps. simpl. apply Hstep.
      * intros k. rewrite IH. apply Hstep.
Qed.

(** The loop completes when every product can hold what it has and what it
    gets back, the lines carrying no negative quantity. *)
Lemma restock_completes lines : ∀ ps,
  Forall (λ sp, 0 ≤ SalesProduct.quantity sp) lines →
  (∀ k p, ps !! k = Some p →
          intColumn (Product.quantity p) = true
          ∧ intColumn (Product.quantity p + returned k lines) = true) →
  ∃ ps', SalesService.restock lines ps = (ps', None).
Proof.
  assert (Hreturned : ∀ k lines,
            Forall (λ sp, 0 ≤ SalesProduct.quantity sp) lines → 0 ≤ returned k lines).
  { intros k l. induction 1; simpl; [done|]. case_decide; lia. }
  induction lines as [|sp rest IH]; intros ps Hlines Hps; simpl; [by eexists|].
  inversion_clear Hlines as [|? ? Hsp Hrest].
  destruct (ps !! SalesProduct.productId sp) as [product|] eqn:Hp.
  - destruct (Hps _ _ Hp) as [Hlo Hhi]. simpl in Hhi. rewrite decide_True in Hhi by done.
    pose proof (Hreturned (SalesProduct.productId sp) rest Hrest) as Hnonneg.
    apply intColumn_true in Hlo, Hhi.
    rewrite (proj2 (intColumn_true _)) by lia.
    apply IH; [done|]. intros k p Hk.
    destruct (decide (SalesProduct.productId sp = k)) as [<-|Hne].
    + rewrite lookup_insert_eq in Hk. injection Hk as <-. simpl.
      pose proof (Hreturned (SalesProduct.productId sp) rest Hrest).
      split; apply intColumn_true; lia.
    + rewrite lookup_insert_ne in Hk by done.
      destruct (Hps _ _ Hk) as [Hlo' Hhi']. simpl in Hhi'.
      rewrite decide_False in Hhi' by done. by rewrite Z.add_0_l in Hhi'.
  - apply IH; [done|]. intros k p Hk. destruct (Hps _ _ Hk) as [Hlo' Hhi'].
    split; [done|]. simpl in Hhi'. case_decide as Heq; [|by rewrite Z.add_0_l in Hhi'].
    subst k. congruence.
Qed.

Lemma returned_sold ps items lines k :
  Forall2 (lineOf ps) items lines → returned k lines = sold k items.
Proof.
  induction 1 as [|item sp items lines (Hid & Hq & _) _ IH]; simpl; [done|].
  by rewrite Hid, Hq, IH.
Qed.

(** ** Recording a sale *)

Section RecordSale.
Import SalesService.

(** What a successful [recordSale] leaves and returns. *)
Lemma recordSale_returns g st salesPersonId saleData st' saleId sale :
  recordSale g st salesPersonId saleData = (st', inr (saleId, sale)) →
  ∃ ps total lines,
    recordSaleLoop (userRepository st !! salesPersonId ≫= User.outletId)
                   (RecordSaleDto.products saleData) (productRepository st) 0 []
    = (ps, inr (total, lines))
    ∧ saleId = newId g
    ∧ sale = Sales.mk lines
               (applyDiscount (RecordSaleDto.discount saleData) total)
               (RecordSaleDto.discount saleData)
               (insertedStatus (RecordSaleDto.status saleData))
               (applyDiscount (RecordSaleDto.discount saleData) total
                - RecordSaleDto.amountPaid saleData)
               (RecordSaleDto.amountPaid saleData)
               (RecordSaleDto.paymentChannel saleData)
               (RecordSaleDto.customer saleData)
               (Some salesPersonId) (now g)
    ∧ st' = setSales (<[saleId := sale]> (salesRepository st)) (setProducts ps st)
    ∧ Sales.fits sale = true
    ∧ forallb SalesProduct.fits lines = true.
Proof.
  unfold recordSale. intros Hrun.
  destruct (userRepository st !! salesPersonId) as [salesPerson|]; [|done]. simpl.
  destruct (recordSaleLoop _ _ _ _ _) as [ps [e|[total lines]]] eqn:Hloop; [done|].
  destruct (Sales.fits _) eqn:Hsale; [|done].
  destruct (forallb _ _) eqn:Hlines; [|done].
  injection Hrun as <- <- <-. by exists ps, total, lines.
Qed.


End RecordSale.

(** ** The claims of the ledger *)

(** Claim C1, as stated, does not hold: a sale whose second line fails the
    stock check leaves the decrement of its first line in the store.  With
    ten pens and one quill in stock, selling three pens and two quills fails
    with the insufficient-stock error and the pens are down to seven. *)
Lemma recordSale_no_rollback :
  ¬ (∀ g st salesPersonId saleData st' e,
       SalesService.recordSale g st salesPersonId saleData = (st', inl (Api e)) →
       isInsufficientStock e →
       productRepository st' = productRepository st
       ∧ salesRepository st' = salesRepository st).
Proof.
  intros Hclaim.
  destruct (Hclaim Scenario.g1 Scenario.store0 "u1" Scenario.sale2
              (SalesService.recordSale Scenario.g1 Scenario.store0 "u1"
                                       Scenario.sale2).1
              (mkApiError (InsufficientStockFor "Quill" 1) 400)) as [Hps _].
  - vm_compute. reflexivity.
  - split; [reflexivity|]. by exists "Quill", 1.
  - apply (f_equal (λ ps, Product.quantity <$> ps !! "p")) in Hps.
    vm_compute in Hps. discriminate.
Qed.

(** Claim C1, amended: when the lines before some line of the request pass and
    that line fails the stock check (it asks for more than the product then
    has), [recordSale] fails with the insufficient-stock error (400) and
    persists no sale, and so no sale line.  Nothing is rolled back: the store
    it leaves has the product table the earlier lines left, every product's
    quantity being its former quantity less what those earlier lines asked of
    it.  When the failing line is the first one, no quantity has changed.
    The product of a line is looked up in the outlet of the sales person, and
    by its id alone for a sales person without outlet. *)
Theorem recordSale_insufficient_stock g st salesPersonId saleData salesPerson
    before item rest ps total lines p :
  userRepository st !! salesPersonId = Some salesPerson →
  RecordSaleDto.products saleData = before ++ item :: rest →
  SalesService.recordSaleLoop (User.outletId salesPerson) before
                              (productRepository st) 0 []
  = (ps, inr (total, lines)) →
  findProductInOutlet ps (SalesProductItemDto.productId item)
                      (User.outletId salesPerson) = Some p →
  Product.quantity p < SalesProductItemDto.quantity item →
  ∃ e,
    SalesService.recordSale g st salesPersonId saleData
    = (setProducts ps st, inl (Api e))
    ∧ isInsufficientStock e
    ∧ salesRepository (setProducts ps st) = salesRepository st
    ∧ (∀ k, ps !! k = adjust (- sold k before) <$> productRepository st !! k)
    ∧ (before = [] → ps = productRepository st).
Proof.
  intros Huser Hitems Hbefore Hfind Hlt.
  exists (mkApiError (InsufficientStockFor (Product.name p) (Product.quantity p)) 400).
  split_and!.
  - unfold SalesService.recordSale. rewrite Huser, Hitems.
    rewrite (recordSaleLoop_app _ _ _ _ _ _ _ _ _ Hbefore). simpl.
    rewrite Hfind. by rewrite (proj2 (Z.ltb_lt _ _) Hlt).
  - split; [done|]. by eexists _, _.
  - done.
  - by apply (recordSaleLoop_products _ _ _ _ _ _ _ _ Hbefore).
  - intros ->. simpl in Hbefore. by injection Hbefore as <- _ _.
Qed.

(** Ten pens and one quill in stock; three pens and two quills asked for. *)
Lemma recordSale_insufficient_stock_witness :
  ∃ ps e,
    SalesService.recordSale Scenario.g1 Scenario.store0 "u1" Scenario.sale2
    = (setProducts ps Scenario.store0, inl (Api e))
    ∧ isInsufficientStock e
    ∧ Product.quantity <$> ps !! "p" = Some 7
    ∧ Product.quantity <$> ps !! "q" = Some 1.
Proof.
  destruct (recordSale_insufficient_stock Scenario.g1 Scenario.store0 "u1"
              Scenario.sale2 Scenario.rep [SalesProductItemDto.mk "p" 3]
              (SalesProductItemDto.mk "q" 2) [] _ _ _ Scenario.Q
              eq_refl eq_refl eq_refl eq_refl)
    as (e & Hrun & He & _); [simpl; lia|].
  eexists _, e. split; [exact Hrun|]. split; [exact He|].
  split; reflexivity.
Defined.



(** Claim C7, as stated, does not hold: the request may carry a status, and a
    sale recorded with status [RETURNED] is persisted with that status. *)
Lemma sale_status_taken_from_request :
  ¬ (∀ g st salesPersonId saleData st' saleId sale,
       SalesService.recordSale g st salesPersonId saleData = (st', inr (saleId, sale)) →
       Sales.status sale = SalesStatus.COMPLETED).
Proof.
  intros Hclaim.
  specialize (Hclaim Scenario.g1 Scenario.store0 "u1" Scenario.sale3 _ _ _ eq_refl).
  vm_compute in Hclaim. discriminate.
Qed.

(** Claim C7, amended: the sale persisted by [recordSale] has the status of
    the request when the request carries one, and [COMPLETED] when it carries
    none. *)
Theorem recordSale_status g st salesPersonId saleData st' saleId sale :
  SalesService.recordSale g st salesPersonId saleData = (st', inr (saleId, sale)) →
  salesRepository st' !! saleId = Some sale
  ∧ Sales.status sale = default SalesStatus.COMPLETED (RecordSaleDto.status saleData)
  ∧ (RecordSaleDto.status saleData = None → Sales.status sale = SalesStatus.COMPLETED).
Proof.
  intros Hrun.
  destruct (recordSale_returns _ _ _ _ _ _ _ Hrun)
    as (ps & total & lines & _ & _ & -> & -> & _).
  split; [apply lookup_insert_eq|].
  simpl. split; [done|]. by intros ->.
Qed.

(** Scenario 1 carries no status and is persisted as [COMPLETED]. *)
Lemma recordSale_status_witness :
  ∃ st' sale,
    SalesService.recordSale Scenario.g1 Scenario.store0 "u1" Scenario.sale1
    = (st', inr ("s1", sale))
    ∧ salesRepository st' !! "s1" = Some sale
    ∧ Sales.status sale = SalesStatus.COMPLETED.
Proof.
  eexists _, _. split; [vm_compute; reflexivity|].
  pose proof (recordSale_status Scenario.g1 Scenario.store0 "u1" Scenario.sale1
                _ _ _ eq_refl) as (Hrow & _ & Hnone).
  exact (conj Hrow (Hnone eq_refl)).
Defined.

(** Claim C4, as stated, does not hold: asking for [RETURNED] on a sale that
    is already [RETURNED] is not rejected; the call returns the sale. *)
Lemma second_return_is_not_rejected :
  ¬ (∀ st saleId sale,
       salesRepository st !! saleId = Some sale →
       Sales.status sale = SalesStatus.RETURNED →
       ∃ e, (SalesService.updateSaleStatus st saleId SalesStatus.RETURNED).2 = inl e).
Proof.
  intros Hclaim.
  pose (st1 := (SalesService.recordSale Scenario.g1 Scenario.store0 "u1"
                                        Scenario.sale1).1).
  pose (st2 := (SalesService.updateSaleStatus st1 "s1" SalesStatus.RETURNED).1).
  destruct (Hclaim st2 "s1"
              (Sales.setStatus SalesStatus.RETURNED
                 (Sales.mk [SalesProduct.mk "p" "Pen" 3 500] 1300 (Some 200)
                           SalesStatus.COMPLETED 0 1300 PaymentChannel.CASH None
                           (Some "u1") 1000))) as [e He].
  - vm_compute. reflexivity.
  - reflexivity.
  - vm_compute in He. discriminate.
Qed.

(** Claim C4, amended: on a sale whose status is already [RETURNED], a further
    [updateSaleStatus(saleId, RETURNED)] returns the sale as it is and changes
    nothing in the store; no product quantity is incremented a second time. *)
Theorem updateSaleStatus_returned_twice st saleId sale :
  salesRepository st !! saleId = Some sale →
  Sales.status sale = SalesStatus.RETURNED →
  SalesService.updateSaleStatus st saleId SalesStatus.RETURNED
  = (st, inr (saleId, sale)).
Proof.
  intros Hsale Hstatus. unfold SalesService.updateSaleStatus.
  rewrite Hsale. by rewrite decide_True.
Qed.

(** Scenario 2: the sale of scenario 1 returned, then returned again. *)
Lemma updateSaleStatus_returned_twice_witness :
  let st1 := (SalesService.recordSale Scenario.g1 Scenario.store0 "u1"
                                      Scenario.sale1).1 in
  let st2 := (SalesService.updateSaleStatus st1 "s1" SalesStatus.RETURNED).1 in
  Product.quantity <$> productRepository st1 !! "p" = Some 7
  ∧ Product.quantity <$> productRepository st2 !! "p" = Some 10
  ∧ ∃ sale, SalesService.updateSaleStatus st2 "s1" SalesStatus.RETURNED
            = (st2, inr ("s1", sale)).
Proof.
  intros st1 st2. split; [reflexivity|]. split; [reflexivity|].
  eexists. apply updateSaleStatus_returned_twice.
  - vm_compute. reflexivity.
  - reflexivity.
Defined.

(** Claim C5, as stated, does not hold: a sale recorded with status
    [RETURNED] has taken its lines from the stock, and the following
    [updateSaleStatus(saleId, RETURNED)] succeeds without re-stocking. *)
Lemma sale_recorded_as_returned_not_restocked :
  ¬ (∀ g st salesPersonId saleData st1 saleId sale st2 r,
       SalesService.recordSale g st salesPersonId saleData = (st1, inr (saleId, sale)) →
       SalesService.updateSaleStatus st1 saleId SalesStatus.RETURNED = (st2, inr r) →
       productRepository st2 = productRepository st).
Proof.
  intros Hclaim.
  pose proof (Hclaim Scenario.g1 Scenario.store0 "u1" Scenario.sale3
                _ _ _ _ _ eq_refl eq_refl) as Hps.
  apply (f_equal (λ ps, Product.quantity <$> ps !! "p")) in Hps.
  vm_compute in Hps. discriminate.
Qed.

(** Claim C5, amended: after a successful [recordSale] whose request does not
    carry the status [RETURNED], a successful
    [updateSaleStatus(saleId, RETURNED)] on the store the sale left sets the
    sale to [RETURNED] and leaves the product table as it was before the
    sale: every product is back at its pre-sale quantity.  The update does
    succeed when the stock held quantities of its column before the sale and
    no line of the request asks for a negative quantity. *)
Theorem recordSale_then_return_restores g st salesPersonId saleData st1 saleId sale :
  SalesService.recordSale g st salesPersonId saleData = (st1, inr (saleId, sale)) →
  RecordSaleDto.status saleData ≠ Some SalesStatus.RETURNED →
  (∀ st2 r,
     SalesService.updateSaleStatus st1 saleId SalesStatus.RETURNED = (st2, inr r) →
     r = (saleId, Sales.setStatus SalesStatus.RETURNED sale)
     ∧ productRepository st2 = productRepository st)
  ∧ (stockInRange (productRepository st) →
     Forall (λ item, 0 ≤ SalesProductItemDto.quantity item)
            (RecordSaleDto.products saleData) →
     ∃ st2,
       SalesService.updateSaleStatus st1 saleId SalesStatus.RETURNED
       = (st2, inr (saleId, Sales.setStatus SalesStatus.RETURNED sale))).
Proof.
  intros Hrun Hstatus.
  destruct (recordSale_returns _ _ _ _ _ _ _ Hrun)
    as (ps & total & lines & Hloop & _ & Hsale & -> & _).
  assert (Sales.status sale ≠ SalesStatus.RETURNED) as Hne.
  { rewrite Hsale. simpl. by destruct (RecordSaleDto.status saleData) as [[]|]. }
  assert (Sales.products sale = lines) as Hlines by (by rewrite Hsale).
  clear Hsale.
  destruct (recordSaleLoop_lines _ _ _ _ _ _ _ _ Hloop) as (new & Hnew & _ & Hall).
  simpl in Hnew. subst new.
  unfold SalesService.updateSaleStatus. cbn [salesRepository setSales].
  rewrite lookup_insert_eq.
  case_decide; [done|]. case_decide; [done|]. case_decide as Hyes; [|by destruct Hyes].
  rewrite Hlines. cbn [productRepository setSales setProducts]. split.
  - intros st2 r Hupdate.
    destruct (SalesService.restock lines ps) as [ps2 thrown] eqn:Hrestock.
    apply restock_products in Hrestock.
    destruct thrown as [failure|]; [done|]. injection Hupdate as <- <-.
    split; [done|]. simpl.
    apply map_eq. intros k. rewrite Hrestock.
    rewrite (recordSaleLoop_products _ _ _ _ _ _ _ _ Hloop k).
    rewrite (returned_sold _ _ _ k Hall).
    destruct (productRepository st !! k) as [p|]; simpl; [|done].
    rewrite adjust_adjust. f_equal. replace (_ + _) with 0 by lia. apply adjust_0.
  - intros Hrange Hitems.
    destruct (restock_completes lines ps) as [ps2 ->]; [| |by eexists].
    + clear -Hall Hitems. induction Hall as [|item sp ?? (_ & Hq & _)]; [constructor|].
      inversion_clear Hitems. constructor; [lia|auto].
    + intros k p Hk. split.
      * pose proof (recordSaleLoop_inRange (userRepository st !! salesPersonId
                                              ≫= User.outletId)
                      (RecordSaleDto.products saleData) _ 0 [] Hrange) as Hps.
        rewrite Hloop in Hps. exact (Hps k p Hk).
      * rewrite (recordSaleLoop_products _ _ _ _ _ _ _ _ Hloop k) in Hk.
        rewrite (returned_sold _ _ _ k Hall).
        destruct (productRepository st !! k) as [p0|] eqn:Hp0; [|done].
        injection Hk as <-. simpl.
        replace (_ + _) with (Product.quantity p0) by lia. exact (Hrange k p0 Hp0).
Qed.

(** Scenarios 1 and 2: seven pens after the sale, ten again after the return. *)
Lemma recordSale_then_return_restores_witness :
  ∃ st1 sale st2,
    SalesService.recordSale Scenario.g1 Scenario.store0 "u1" Scenario.sale1
    = (st1, inr ("s1", sale))
    ∧ Product.quantity <$> productRepository st1 !! "p" = Some 7
    ∧ SalesService.updateSaleStatus st1 "s1" SalesStatus.RETURNED
      = (st2, inr ("s1", Sales.setStatus SalesStatus.RETURNED sale))
    ∧ productRepository st2 = productRepository Scenario.store0.
Proof.
  eexists _, _.
  destruct (recordSale_then_return_restores Scenario.g1 Scenario.store0 "u1"
              Scenario.sale1 _ _ _ eq_refl) as [Hrestores _].
  - discriminate.
  - eexists. split; [vm_compute; reflexivity|]. split; [reflexivity|].
    split; [vm_compute; reflexivity|].
    exact (proj2 (Hrestores _ _ eq_refl)).
Defined.

(** ** Recording and reconciling a count *)

Section InventoryLoops.
Import InventoryService.

Lemma recordInventoryLoop_lines outletId productsData ps : ∀ acc lines,
  recordInventoryLoop outletId productsData ps acc = inr lines →
  ∃ new, lines = acc ++ new ∧ Forall2 (snapshotOf ps) productsData new.
Proof.
  induction productsData as [|item rest IH]; intros acc lines Hrun; simpl in *.
  - injection Hrun as <-. exists []. by rewrite app_nil_r.
  - destruct (findProductInOutlet ps _ _) as [product|] eqn:Hfind; [|done].
    apply findProductInOutlet_Some in Hfind as [Hp _].
    destruct (IH _ _ Hrun) as (new & -> & Hall).
    eexists (_ :: new). split; [by rewrite <- app_assoc|].
    constructor; [|done].
    unfold snapshotOf; simpl. split_and!; [done..|]. by exists product.
Qed.

(** [recordInventory] writes to the inventory table only. *)
Lemma recordInventory_frame g st outletId actionerId productsData :
  let st' := (recordInventory g st outletId actionerId productsData).1 in
  productRepository st' = productRepository st
  ∧ salesRepository st' = salesRepository st.
Proof.
  unfold recordInventory.
  destruct (outletRepository st !! outletId); [|done].
  destruct (userRepository st !! actionerId); [|done].
  by destruct (recordInventoryLoop _ _ _ _).
Qed.

(** [reconcileInventory] throws at its first statement, whatever it is given:
    ['products'] is no relation of [Inventory]. *)
Lemma reconcileInventory_throws st inventoryId reconciledProductsData :
  reconcileInventory st inventoryId reconciledProductsData
  = (st, inl (EntityPropertyNotFoundError "products")).
Proof.
  unfold reconcileInventory. rewrite decide_False; [done|].
  unfold Inventory.relations. intros Hin.
  repeat (apply elem_of_cons in Hin as [Hin|Hin]; [discriminate|]).
  by apply elem_of_nil in Hin.
Qed.

End InventoryLoops.




(** Claim C8: a successful [recordInventory] stores, for each submitted count,
    a line with that count, with [amountInDb] the quantity the product has at
    that moment and with [reconciled = false]; the record is created with
    status [PENDING] under the returned id; and the product table is the same
    before and after the call. *)
Theorem recordInventory_snapshot g st outletId actionerId productsData st'
    inventoryId inventory :
  InventoryService.recordInventory g st outletId actionerId productsData
  = (st', inr (inventoryId, inventory)) →
  Forall2 (snapshotOf (productRepository st)) productsData
          (Inventory.products inventory)
  ∧ Forall (λ line, InventoryProduct.reconciled line = false)
           (Inventory.products inventory)
  ∧ Inventory.status inventory = InventoryStatus.PENDING
  ∧ inventoryRepository st' !! inventoryId = Some inventory
  ∧ productRepository st' = productRepository st.
Proof.
  unfold InventoryService.recordInventory. intros Hrun.
  destruct (outletRepository st !! outletId); [|done].
  destruct (userRepository st !! actionerId); [|done].
  destruct (InventoryService.recordInventoryLoop _ _ _ _) as [e|lines] eqn:Hloop; [done|].
  injection Hrun as <- <- <-. simpl.
  apply recordInventoryLoop_lines in Hloop as (new & -> & Hall). simpl.
  split_and!; [done| |done|apply lookup_insert_eq|done].
  clear -Hall. induction Hall as [|?? ?? (_ & _ & ? & _)]; by constructor.
Qed.

(** Scenario 3: eight pens counted against ten on record. *)
Lemma recordInventory_snapshot_witness :
  ∃ st' inventory,
    InventoryService.recordInventory Scenario.g2 Scenario.store0 "o1" "u1"
                                     Scenario.count1
    = (st', inr ("i1", inventory))
    ∧ Inventory.products inventory = [InventoryProduct.mk "p" "Pen" 8 10 false]
    ∧ Inventory.status inventory = InventoryStatus.PENDING
    ∧ productRepository st' = productRepository Scenario.store0.
Proof.
  eexists _, _. split; [vm_compute; reflexivity|]. split; [reflexivity|].
  pose proof (recordInventory_snapshot Scenario.g2 Scenario.store0 "o1" "u1"
                Scenario.count1 _ _ _ eq_refl) as (_ & _ & Hstatus & _ & Hps).
  exact (conj Hstatus Hps).
Defined.

(** Claim C10 describes what the body of [reconcileInventory] is written to
    do, and the method does not get there: its first statement asks the ORM
    to load ['products'] as a relation of [Inventory], which it is not, and
    the call throws [EntityPropertyNotFoundError] before it reads the record
    or writes anything.  No call returns: no line is rewritten, no quantity
    set, and the record of scenario 3 stays [PENDING]. *)
Theorem reconcileInventory_never_returns st inventoryId reconciledProductsData :
  InventoryService.reconcileInventory st inventoryId reconciledProductsData
  = (st, inl (EntityPropertyNotFoundError "products"))
  ∧ (Inventory.status <$> inventoryRepository Scenario.store1 !! "i1"
     = Some InventoryStatus.PENDING
     ∧ let st' := (InventoryService.reconcileInventory Scenario.store1 "i1"
                     Scenario.reconcile1).1 in
       Inventory.status <$> inventoryRepository st' !! "i1"
       = Some InventoryStatus.PENDING
       ∧ Product.quantity <$> productRepository st' !! "p" = Some 10).
Proof.
  split; [apply reconcileInventory_throws|]. by vm_compute.
Qed.

(** ** Stock never goes below zero *)

Section StockInvariant.
Import SalesService InventoryService.

(** The selling loop takes from a product only what it has, whatever the
    outcome of the run. *)
Lemma recordSaleLoop_nonneg outlet items : ∀ ps t ls,
  stockNonNegative ps →
  stockNonNegative (recordSaleLoop outlet items ps t ls).1.
Proof.
  induction items as [|item rest IH]; intros ps t ls Hps; simpl; [done|].
  destruct (findProductInOutlet ps _ outlet) as [product|]; [|done].
  destruct (Product.quantity product <? _) eqn:Hlt; [done|].
  destruct (intColumn _); [|done].
  apply IH, map_Forall_insert_2; [simpl; lia|done].
Qed.

Lemma restock_nonneg lines : ∀ ps,
  Forall (λ sp, 0 ≤ SalesProduct.quantity sp) lines →
  stockNonNegative ps →
  stockNonNegative (restock lines ps).1.
Proof.
  induction lines as [|sp rest IH]; intros ps Hlines Hps; simpl; [done|].
  inversion_clear Hlines as [|?? Hsp Hrest].
  destruct (ps !! SalesProduct.productId sp) as [product|] eqn:Hp; [|by apply IH].
  destruct (intColumn _); [|done].
  apply IH; [done|]. apply map_Forall_insert_2; [|done].
  pose proof (Hps _ _ Hp) as Hq. simpl in *. lia.
Qed.

(** Each operation, on validated input, keeps the stock at or above zero
    and stores no sale line of negative quantity. *)
Lemma exec_invariant st op :
  validated op →
  stockNonNegative (productRepository st) →
  linesNonNegative (salesRepository st) →
  stockNonNegative (productRepository (exec st op))
  ∧ linesNonNegative (salesRepository (exec st op)).
Proof.
  intros Hop Hps Hss. destruct op as [g u saleData|saleId newStatus|g o a d|i d];
    unfold exec; [simpl in *..|].
  - unfold recordSale.
    destruct (userRepository st !! u) as [salesPerson|]; [|done].
    pose proof (recordSaleLoop_nonneg (User.outletId salesPerson)
                  (RecordSaleDto.products saleData) _ 0 [] Hps) as Hloop.
    destruct (recordSaleLoop _ _ _ _ _) as [ps [e|[total lines]]] eqn:Hrun;
      simpl in *; [done|].
    destruct (Sales.fits _); [|done]. destruct (forallb _ _); [|done].
    split; [done|]. apply map_Forall_insert_2; [|done]. simpl.
    apply recordSaleLoop_lines in Hrun as (new & -> & _ & Hall). simpl.
    clear -Hop Hall.
    induction Hall as [|item sp ?? (_ & Hq & _)]; [constructor|].
    inversion_clear Hop. constructor; [lia|auto].
  - unfold updateSaleStatus.
    destruct (salesRepository st !! saleId) as [sale|] eqn:Hsale; [|done].
    pose proof (Hss _ _ Hsale) as Hlines. simpl in Hlines.
    case_decide as Hsame; [done|]. case_decide as Hother; [done|].
    case_decide as Hyes; [|destruct Hyes; split; congruence].
    pose proof (restock_nonneg _ _ Hlines Hps) as Hrestock.
    destruct (restock _ _) as [ps [failure|]]; simpl in *; [done|].
    split; [done|]. by apply map_Forall_insert_2.
  - by destruct (recordInventory_frame g st o a d) as [-> ->].
  - by rewrite reconcileInventory_throws.
Qed.

End StockInvariant.

(** Claim C2, as stated, does not hold: a store whose products all have a
    quantity of at least 0 may hold a sale with a line of negative quantity,
    and returning that sale takes the quantity of the line from the stock.
    With one quill in stock and a sale with a line of -5 quills, the return
    leaves -4 quills. *)
Lemma return_of_negative_line_takes_stock :
  ¬ (∀ st ops,
       stockNonNegative (productRepository st) →
       Forall validated ops →
       ∀ k p, productRepository (foldl exec st ops) !! k = Some p →
              0 ≤ Product.quantity p).
Proof.
  intros Hclaim.
  pose proof (Hclaim Scenario.store5 [UpdateSaleStatus "s0" SalesStatus.RETURNED]
                ltac:(apply map_Forall_singleton; simpl; lia)
                ltac:(by repeat constructor)
                "q" (Product.setQuantity (-4) Scenario.Q) eq_refl) as Hq.
  simpl in Hq. lia.
Qed.

(** Claim C2, amended: from a store in which every product quantity is at
    least 0 and no stored sale line has a negative quantity, any sequence of
    [recordSale], [updateSaleStatus], [recordInventory] and
    [reconcileInventory] on validated input (sale line quantity at least 1,
    reconciled quantity at least 0), returning or throwing, leaves every
    product with a quantity of at least 0. *)
Theorem stock_never_negative st ops :
  stockNonNegative (productRepository st) →
  linesNonNegative (salesRepository st) →
  Forall validated ops →
  ∀ k p, productRepository (foldl exec st ops) !! k = Some p →
         0 ≤ Product.quantity p.
Proof.
  intros Hps Hss Hops.
  enough (stockNonNegative (productRepository (foldl exec st ops))) as Hend
    by (intros k p Hk; exact (Hend k p Hk)).
  revert st Hps Hss.
  induction Hops as [|op ops Hop _ IH]; intros st Hps Hss; simpl; [done|].
  destruct (exec_invariant st op Hop Hps Hss) as [Hps' Hss']. by apply IH.
Qed.

(** A run of the four operations, one of them throwing half-way. *)
Lemma stock_never_negative_witness :
  let ops := [RecordSale Scenario.g1 "u1" Scenario.sale1;
              UpdateSaleStatus "s1" SalesStatus.RETURNED;
              RecordSale (mkGenerated "s2" 1500) "u1" Scenario.sale2;
              RecordInventory Scenario.g2 "o1" "u1" Scenario.count1;
              ReconcileInventory "i1" Scenario.reconcile1] in
  Product.quantity <$> productRepository (foldl exec Scenario.store0 ops) !! "p"
  = Some 7
  ∧ ∀ k p, productRepository (foldl exec Scenario.store0 ops) !! k = Some p →
           0 ≤ Product.quantity p.
Proof.
  intros ops. split; [reflexivity|].
  apply (stock_never_negative Scenario.store0 ops).
  - apply map_Forall_insert_2; [simpl; lia|].
    apply map_Forall_singleton. simpl. lia.
  - apply map_Forall_empty.
  - repeat constructor; simpl; lia.
Defined.

(** ** Scoped reads *)

Section ScopedReadsIsolation.
Variable searchSales : string → Saved Sales.t → bool.
Variable searchInventories : string → Saved Inventory.t → bool.
Variable orderSales :
  string → SortOrder → list (Saved Sales.t) → list (Saved Sales.t).
Variable orderInventories :
  string → SortOrder → list (Saved Inventory.t) → list (Saved Inventory.t).

(** ORDER BY returns the rows it is given, in some order. *)
Hypothesis orderSales_perm : ∀ c o l, orderSales c o l ≡ₚ l.
Hypothesis orderInventories_perm : ∀ c o l, orderInventories c o l ≡ₚ l.

(** A row of the page is a row of the table that passes the RBAC
    restriction, whatever the filters and the pagination. *)
Lemma getAllSales_in_scope st requester filters pagination row :
  row ∈ PaginatedResult.data
          (getAllSales searchSales orderSales st requester filters pagination) →
  salesRepository st !! row.1 = Some row.2
  ∧ salesScope st requester row = true.
Proof.
  unfold getAllSales. simpl. intros Hrow.
  apply subseteq_take, subseteq_drop in Hrow.
  rewrite orderSales_perm in Hrow.
  apply list_elem_of_In, filter_In in Hrow as [Hin Hpass].
  apply list_elem_of_In in Hin. destruct row as [k sale].
  apply elem_of_map_to_list in Hin.
  apply andb_true_iff in Hpass as [Hscope _]. done.
Qed.

Lemma getAllInventories_in_scope st requester filters pagination row :
  row ∈ PaginatedResult.data
          (getAllInventories searchInventories orderInventories st requester
                             filters pagination) →
  inventoryRepository st !! row.1 = Some row.2
  ∧ inventoryScope st requester row = true.
Proof.
  unfold getAllInventories. simpl. intros Hrow.
  apply subseteq_take, subseteq_drop in Hrow.
  rewrite orderInventories_perm in Hrow.
  apply list_elem_of_In, filter_In in Hrow as [Hin Hpass].
  apply list_elem_of_In in Hin. destruct row as [k inventory].
  apply elem_of_map_to_list in Hin.
  apply andb_true_iff in Hpass as [Hscope _]. done.
Qed.

Lemma sqlEq_true column parameter :
  sqlEq column parameter = true → column = parameter ∧ is_Some parameter.
Proof.
  destruct column as [c|], parameter as [v|]; simpl; try done.
  intros ->%bool_decide_eq_true. eauto.
Qed.

(** Claim C9: for a requester of type [sales_rep], every row [getAllSales]
    returns has [salesPersonId] equal to the requester's id; for a requester
    of type [store_executive], every row [getAllSales] returns was sold by a
    user of the requester's outlet and every row [getAllInventories] returns
    is of the requester's outlet; this for all filters and pagination the
    caller supplies. *)
Theorem list_isolation st requester salesFilters inventoryFilters pagination :
  (Requester.userType requester = "sales_rep" →
   ∀ row,
     row ∈ PaginatedResult.data
             (getAllSales searchSales orderSales st requester salesFilters
                          pagination) →
     Sales.salesPersonId row.2 = Some (Requester.id requester))
  ∧ (Requester.userType requester = "store_executive" →
     (∀ row,
        row ∈ PaginatedResult.data
                (getAllSales searchSales orderSales st requester salesFilters
                             pagination) →
        ∃ salesPerson,
          salesPersonOf st row.2 = Some salesPerson
          ∧ is_Some (Requester.outletId requester)
          ∧ User.outletId salesPerson = Requester.outletId requester)
     ∧ (∀ row,
          row ∈ PaginatedResult.data
                  (getAllInventories searchInventories orderInventories st
                                     requester inventoryFilters pagination) →
          Some (Inventory.outletId row.2) = Requester.outletId requester)).
Proof.
  split; [|intros Hrole; split].
  - intros Hrole row [_ Hscope]%getAllSales_in_scope.
    unfold salesScope in Hscope. rewrite Hrole in Hscope.
    repeat (case_decide; try done).
    by apply sqlEq_true in Hscope as [-> _].
  - intros row [_ Hscope]%getAllSales_in_scope.
    unfold salesScope in Hscope. rewrite Hrole in Hscope.
    repeat (case_decide; try done).
    apply sqlEq_true in Hscope as [Heq Hsome].
    destruct (salesPersonOf st row.2) as [salesPerson|]; simpl in Heq.
    + by exists salesPerson.
    + rewrite <- Heq in Hsome. by destruct Hsome.
  - intros row [_ Hscope]%getAllInventories_in_scope.
    unfold inventoryScope in Hscope. rewrite Hrole in Hscope.
    repeat (case_decide; try done); [|tauto].
    by apply sqlEq_true in Hscope as [-> _].
Qed.

End ScopedReadsIsolation.

Lemma salesByDate_perm c o l : Scenario.salesByDate c o l ≡ₚ l.
Proof.
  unfold Scenario.salesByDate. case_decide; [apply merge_sort_Permutation|done].
Qed.

Lemma inventoriesByDate_perm c o l : Scenario.inventoriesByDate c o l ≡ₚ l.
Proof.
  unfold Scenario.inventoriesByDate. case_decide; [apply merge_sort_Permutation|done].
Qed.

(** Two outlets with a sale and a count each: the representative and the
    store executive of the first outlet see the rows of the first only. *)
Lemma list_isolation_witness :
  let mine :=
    getAllSales Scenario.searchAll Scenario.salesByDate Scenario.store4
                Scenario.asRep Scenario.noSalesFilters Scenario.firstPage in
  let outletSales :=
    getAllSales Scenario.searchAll Scenario.salesByDate Scenario.store4
                Scenario.asExecutive Scenario.noSalesFilters Scenario.firstPage in
  let outletCounts :=
    getAllInventories Scenario.searchAll Scenario.inventoriesByDate Scenario.store4
                      Scenario.asExecutive Scenario.noInventoryFilters
                      Scenario.firstPage in
  dom (salesRepository Scenario.store4) = {[ "s1"; "s2" ]}
  ∧ (PaginatedResult.data mine).*1 = ["s1"]
  ∧ (PaginatedResult.data outletSales).*1 = ["s1"]
  ∧ (PaginatedResult.data outletCounts).*1 = ["i1"]
  ∧ (∀ row, row ∈ PaginatedResult.data mine →
            Sales.salesPersonId row.2 = Some "u1")
  ∧ (∀ row, row ∈ PaginatedResult.data outletCounts →
            Some (Inventory.outletId row.2) = Some "o1").
Proof.
  intros mine outletSales outletCounts.
  split; [by vm_compute|]. split; [reflexivity|]. split; [reflexivity|].
  split; [reflexivity|].
  pose proof (λ requester,
                list_isolation Scenario.searchAll Scenario.searchAll
                  Scenario.salesByDate Scenario.inventoriesByDate
                  salesByDate_perm inventoriesByDate_perm
                  Scenario.store4 requester Scenario.noSalesFilters
                  Scenario.noInventoryFilters Scenario.firstPage) as Hiso.
  split.
  - exact (proj1 (Hiso Scenario.asRep) eq_refl).
  - exact (proj2 (proj2 (Hiso Scenario.asExecutive) eq_refl)).
Defined.

(** ** Further properties of the sales service *)







(** Extra X2: a successful [recordSale] takes from every product the units
    asked of it over all the lines (two lines naming one product add up) and
    leaves its name, price, re-order point, outlet and business as they
    were; it inserts the sale under the generated id and writes to no other
    table nor to any other sale. *)
Theorem recordSale_effect g st salesPersonId saleData st' saleId sale :
  SalesService.recordSale g st salesPersonId saleData = (st', inr (saleId, sale)) →
  saleId = newId g
  ∧ (∀ k, productRepository st' !! k
          = adjust (- sold k (RecordSaleDto.products saleData))
              <$> productRepository st !! k)
  ∧ salesRepository st' = <[saleId := sale]> (salesRepository st)
  ∧ userRepository st' = userRepository st
  ∧ outletRepository st' = outletRepository st
  ∧ inventoryRepository st' = inventoryRepository st.
Proof.
  intros Hrun.
  destruct (recordSale_returns _ _ _ _ _ _ _ Hrun)
    as (ps & total & lines & Hloop & -> & _ & -> & _).
  split_and!; try done.
  intros k. apply (recordSaleLoop_products _ _ _ _ _ _ _ _ Hloop).
Qed.

(** Four pens and then three more on one request: seven leave the stock. *)
Lemma recordSale_effect_witness :
  let twice :=
    RecordSaleDto.mk [SalesProductItemDto.mk "p" 4; SalesProductItemDto.mk "p" 3]
                     None None 0 PaymentChannel.CASH None in
  ∃ st' sale,
    SalesService.recordSale Scenario.g1 Scenario.store0 "u1" twice
    = (st', inr ("s1", sale))
    ∧ productRepository st' !! "p" = Some (adjust (-7) Scenario.P)
    ∧ productRepository st' !! "q" = Some Scenario.Q.
Proof.
  intros twice. eexists _, _. split; [vm_compute; reflexivity|].
  destruct (recordSale_effect Scenario.g1 Scenario.store0 "u1" twice _ _ _ eq_refl)
    as (_ & Hps & _).
  split; [exact (Hps "p")|exact (Hps "q")].
Defined.

(** Extra X3: on a stored sale that is not [RETURNED],
    [updateSaleStatus(saleId, RETURNED)] either returns, having stored the
    sale with status [RETURNED] and nothing else of it changed and given back
    to every product still in the table the units of the lines that name it
    (a line whose product is gone is skipped and creates no product); or it
    throws the [QueryFailedError] of a line whose product cannot hold the sum
    in its [int] column, after the lines before it were given back, and the
    sale keeps its status.  It returns when the lines carry no negative
    quantity and every product can hold what it has and what it gets back.
    Users, outlets and inventories are not written. *)
Theorem updateSaleStatus_return_effect st saleId sale :
  salesRepository st !! saleId = Some sale →
  Sales.status sale ≠ SalesStatus.RETURNED →
  ∃ st' result,
    SalesService.updateSaleStatus st saleId SalesStatus.RETURNED = (st', result)
    ∧ userRepository st' = userRepository st
    ∧ outletRepository st' = outletRepository st
    ∧ inventoryRepository st' = inventoryRepository st
    ∧ match result with
      | inr saved =>
        saved = (saleId, Sales.setStatus SalesStatus.RETURNED sale)
        ∧ salesRepository st'
          = <[saleId := Sales.setStatus SalesStatus.RETURNED sale]> (salesRepository st)
        ∧ ∀ k, productRepository st' !! k
               = adjust (returned k (Sales.products sale)) <$> productRepository st !! k
      | inl failure =>
        failure = QueryFailedError "products"
        ∧ salesRepository st' = salesRepository st
        ∧ ∃ before sp rest p,
            Sales.products sale = before ++ sp :: rest
            ∧ (∀ k, productRepository st' !! k
                    = adjust (returned k before) <$> productRepository st !! k)
            ∧ productRepository st' !! SalesProduct.productId sp = Some p
            ∧ intColumn (Product.quantity p + SalesProduct.quantity sp) = false
      end
    ∧ (Forall (λ sp, 0 ≤ SalesProduct.quantity sp) (Sales.products sale) →
       (∀ k p, productRepository st !! k = Some p →
               intColumn (Product.quantity p) = true
               ∧ intColumn (Product.quantity p + returned k (Sales.products sale))
                 = true) →
       ∃ saved, result = inr saved).
Proof.
  intros Hsale Hstatus. unfold SalesService.updateSaleStatus. rewrite Hsale.
  case_decide; [done|]. case_decide; [done|].
  case_decide as Hyes; [|by destruct Hyes].
  destruct (SalesService.restock _ _) as [ps thrown] eqn:Hrestock.
  pose proof (restock_products _ _ _ _ Hrestock) as Hps.
  destruct thrown as [failure|].
  - destruct Hps as [-> Hbefore].
    eexists _, _. split; [reflexivity|]. simpl. do 3 (split; [done|]).
    split; [by split_and!|]. intros Hlines Hrange.
    destruct (restock_completes _ _ Hlines Hrange) as [ps' Hdone]. congruence.
  - eexists _, _. split; [reflexivity|]. simpl. do 3 (split; [done|]).
    split; [by split_and!|]. by eexists.
Qed.

(** Scenario 2: the three pens of scenario 1 come back.  Five pens returned
    to a stock of 2147483645: the return throws and the sale stays
    [COMPLETED]. *)
Lemma updateSaleStatus_return_effect_witness :
  let st1 := (SalesService.recordSale Scenario.g1 Scenario.store0 "u1"
                                      Scenario.sale1).1 in
  (∃ st' sale,
     salesRepository st1 !! "s1" = Some sale
     ∧ (SalesService.updateSaleStatus st1 "s1" SalesStatus.RETURNED).1 = st'
     ∧ productRepository st' !! "p" = adjust 3 <$> productRepository st1 !! "p"
     ∧ Sales.status <$> salesRepository st' !! "s1" = Some SalesStatus.RETURNED)
  ∧ ∃ st',
      SalesService.updateSaleStatus Scenario.store7 "s0" SalesStatus.RETURNED
      = (st', inl (QueryFailedError "products"))
      ∧ salesRepository st' = salesRepository Scenario.store7
      ∧ Sales.status <$> salesRepository st' !! "s0" = Some SalesStatus.COMPLETED.
Proof.
  intros st1. split.
  - destruct (updateSaleStatus_return_effect st1 "s1" _ eq_refl)
      as (st' & result & Hrun & _ & _ & _ & Hresult & _); [discriminate|].
    vm_compute in Hrun. injection Hrun as <- <-.
    destruct Hresult as (_ & Hss & Hps).
    eexists _, _. split; [vm_compute; reflexivity|].
    split; [vm_compute; reflexivity|]. split; [exact (Hps "p")|].
    rewrite Hss. reflexivity.
  - destruct (updateSaleStatus_return_effect Scenario.store7 "s0" _ eq_refl)
      as (st' & result & Hrun & _ & _ & _ & Hresult & _); [discriminate|].
    vm_compute in Hrun. injection Hrun as <- <-.
    destruct Hresult as (_ & Hss & _).
    eexists. split; [vm_compute; reflexivity|]. split; [exact Hss|reflexivity].
Defined.

(** Extra X4: [updateSaleStatus] never creates or deletes a sale and never
    stores a status other than [RETURNED]: a sale of the store it leaves is a
    sale of the store it found, unchanged, or the sale asked for, which was
    not [RETURNED] and now differs by its status only.  When the status asked
    for is not [RETURNED] the whole store is left as it was. *)
Theorem updateSaleStatus_writes_only_returned st saleId newStatus :
  let st' := (SalesService.updateSaleStatus st saleId newStatus).1 in
  dom (salesRepository st') = dom (salesRepository st)
  ∧ (∀ k sale', salesRepository st' !! k = Some sale' →
       salesRepository st !! k = Some sale'
       ∨ (k = saleId ∧ newStatus = SalesStatus.RETURNED
          ∧ ∃ sale, salesRepository st !! saleId = Some sale
                    ∧ Sales.status sale ≠ SalesStatus.RETURNED
                    ∧ sale' = Sales.setStatus SalesStatus.RETURNED sale))
  ∧ (newStatus ≠ SalesStatus.RETURNED → st' = st).
Proof.
  unfold SalesService.updateSaleStatus.
  destruct (salesRepository st !! saleId) as [sale|] eqn:Hsale; simpl; [|by auto].
  case_decide as Hsame; simpl; [by auto|].
  case_decide as Hother; simpl; [by auto|].
  subst newStatus. case_decide as Hyes; [|by destruct Hyes].
  destruct (SalesService.restock _ _) as [ps [failure|]]; simpl;
    [split_and!; [done|by auto|done]|].
  split_and!; [| |done].
  - by apply dom_insert_lookup_L.
  - intros k sale'. destruct (decide (k = saleId)) as [->|Hk].
    + rewrite lookup_insert_eq. intros [= <-]. right. split_and!; [done..|].
      by exists sale.
    + rewrite lookup_insert_ne by done. by left.
Qed.

(** ** What the operations leave of the rows they did not create *)

(** One operation and one stored sale it does not overwrite. *)
Lemma exec_keeps_sale st op k sale :
  salesRepository st !! k = Some sale →
  generatedSaleId op ≠ Some k →
  salesRepository (exec st op) !! k = Some sale
  ∨ (Sales.status sale ≠ SalesStatus.RETURNED
     ∧ salesRepository (exec st op) !! k
       = Some (Sales.setStatus SalesStatus.RETURNED sale)).
Proof.
  intros Hsale Hgen. destruct op as [g u saleData|saleId newStatus|g o a d|i d];
    unfold exec; [simpl in *..|].
  - left. unfold SalesService.recordSale.
    destruct (userRepository st !! u) as [salesPerson|]; [|done].
    destruct (SalesService.recordSaleLoop _ _ _ _ _) as [ps [e|[total lines]]];
      simpl; [done|].
    destruct (Sales.fits _); [|done]. destruct (forallb _ _); [|done]. simpl.
    rewrite lookup_insert_ne; [done|]. congruence.
  - unfold SalesService.updateSaleStatus.
    destruct (salesRepository st !! saleId) as [sale0|] eqn:Hsale0; [|by left].
    case_decide; [by left|]. case_decide; [by left|]. subst newStatus.
    case_decide as Hyes; [|by destruct Hyes].
    destruct (SalesService.restock _ _) as [ps [failure|]]; simpl; [by left|].
    destruct (decide (saleId = k)) as [->|Hk].
    + right. rewrite lookup_insert_eq. rewrite Hsale in Hsale0.
      injection Hsale0 as <-. done.
    + left. by rewrite lookup_insert_ne.
  - left. by destruct (recordInventory_frame g st o a d) as [_ ->].
  - left. by rewrite reconcileInventory_throws.
Qed.

(** Extra X5: a stored sale is never deleted, and nothing of it but its status
    ever changes: after any sequence of the four operations that does not
    generate its id anew, the sale is there as it was or with status
    [RETURNED] in place of the status it had; its lines, amounts and sales
    person are those recorded.  A sale that is [RETURNED] stays as it is. *)
Theorem sale_rows_are_stable ops : ∀ st k sale,
  salesRepository st !! k = Some sale →
  Forall (λ op, generatedSaleId op ≠ Some k) ops →
  (salesRepository (foldl exec st ops) !! k = Some sale
   ∨ (Sales.status sale ≠ SalesStatus.RETURNED
      ∧ salesRepository (foldl exec st ops) !! k
        = Some (Sales.setStatus SalesStatus.RETURNED sale))).
Proof.
  induction ops as [|op ops IH]; intros st k sale Hsale Hgen; simpl; [by left|].
  inversion_clear Hgen as [|?? Hop Hops].
  destruct (exec_keeps_sale st op k sale Hsale Hop) as [Hkept|[Hne Hret]].
  - by apply IH.
  - right. split; [done|].
    destruct (IH _ _ _ Hret Hops) as [Hkept|[Hno _]]; [done|].
    by destruct Hno.
Qed.

(** The sale of scenario 1 through a return, a request for [COMPLETED], a
    second sale and a count. *)
Lemma sale_rows_are_stable_witness :
  let st1 := (SalesService.recordSale Scenario.g1 Scenario.store0 "u1"
                                      Scenario.sale1).1 in
  let ops := [UpdateSaleStatus "s1" SalesStatus.RETURNED;
              UpdateSaleStatus "s1" SalesStatus.COMPLETED;
              RecordSale (mkGenerated "s2" 1500) "u1" Scenario.sale1;
              RecordInventory Scenario.g2 "o1" "u1" Scenario.count1] in
  ∃ sale,
    salesRepository st1 !! "s1" = Some sale
    ∧ salesRepository (foldl exec st1 ops) !! "s1"
      = Some (Sales.setStatus SalesStatus.RETURNED sale).
Proof.
  intros st1 ops. eexists. split; [vm_compute; reflexivity|].
  destruct (sale_rows_are_stable ops st1 "s1" _ eq_refl) as [Hkept|[_ Hret]].
  - repeat constructor; discriminate.
  - vm_compute in Hkept. discriminate.
  - exact Hret.
Defined.

(** One operation and one stored inventory record it does not overwrite. *)
Lemma exec_keeps_inventory st op k inventory :
  inventoryRepository st !! k = Some inventory →
  generatedInventoryId op ≠ Some k →
  inventoryRepository (exec st op) !! k = Some inventory.
Proof.
  intros Hinv Hgen. destruct op as [g u saleData|saleId newStatus|g o a d|i d];
    unfold exec; [simpl in *..|].
  - unfold SalesService.recordSale.
    destruct (userRepository st !! u) as [salesPerson|]; [|done].
    destruct (SalesService.recordSaleLoop _ _ _ _ _) as [ps [e|[total lines]]];
      [done|].
    destruct (Sales.fits _); [|done]. by destruct (forallb _ _).
  - unfold SalesService.updateSaleStatus.
    destruct (salesRepository st !! saleId) as [sale0|]; [|done].
    case_decide; [done|]. case_decide; [done|].
    destruct (if decide _ then _ else _) as [ps [failure|]]; done.
  - unfold InventoryService.recordInventory.
    destruct (outletRepository st !! o); [|done].
    destruct (userRepository st !! a); [|done].
    destruct (InventoryService.recordInventoryLoop _ _ _ _); simpl; [done|].
    rewrite lookup_insert_ne; [done|]. congruence.
  - by rewrite reconcileInventory_throws.
Qed.

(** Extra X6: an inventory record is never deleted and never rewritten:
    after any sequence of the four operations that does not generate its id
    anew, the record is there as it was, with its lines, its status, its
    outlet, its actioner and its date.  [reconcileInventory] is among the
    operations: it throws before it writes, so that a [PENDING] record stays
    [PENDING]. *)
Theorem inventory_rows_are_stable ops : ∀ st k inventory,
  inventoryRepository st !! k = Some inventory →
  Forall (λ op, generatedInventoryId op ≠ Some k) ops →
  inventoryRepository (foldl exec st ops) !! k = Some inventory.
Proof.
  induction ops as [|op ops IH]; intros st k inventory Hinv Hgen; simpl; [done|].
  inversion_clear Hgen as [|?? Hop Hops].
  apply IH; [|done]. by apply exec_keeps_inventory.
Qed.

(** The count of scenario 3 through its reconciliation at eight pens, a sale
    and a second count. *)
Lemma inventory_rows_are_stable_witness :
  let ops := [ReconcileInventory "i1" Scenario.reconcile1;
              RecordSale Scenario.g1 "u1" Scenario.sale1;
              RecordInventory (mkGenerated "i2" 2100) "o1" "u1" Scenario.count1] in
  inventoryRepository (foldl exec Scenario.store1 ops) !! "i1"
  = Some (Inventory.mk "o1" [InventoryProduct.mk "p" "Pen" 8 10 false]
                       InventoryStatus.PENDING (Some "u1") 2000).
Proof.
  intros ops. apply (inventory_rows_are_stable ops Scenario.store1 "i1").
  - reflexivity.
  - repeat constructor; discriminate.
Defined.

(** ** Errors and edge cases of the two services *)

Lemma recordInventoryLoop_throws outletId productsData ps : ∀ acc e,
  InventoryService.recordInventoryLoop outletId productsData ps acc = inl e →
  ∃ productId, e = mkApiError (ProductNotFoundInOutlet productId) 404.
Proof.
  induction productsData as [|item rest IH]; intros acc e Hrun; simpl in *; [done|].
  destruct (findProductInOutlet ps _ _) as [product|]; [by eapply IH|].
  injection Hrun as <-. by eexists.
Qed.

Lemma recordInventoryLoop_completes outletId productsData ps : ∀ acc,
  (∃ lines, InventoryService.recordInventoryLoop outletId productsData ps acc
            = inr lines)
  ↔ Forall (λ item,
              ∃ p, ps !! InventoryProductItemDto.productId item = Some p
                   ∧ Product.outletId p = outletId) productsData.
Proof.
  induction productsData as [|item rest IH]; intros acc; simpl.
  - split; [constructor|]. by eexists.
  - unfold findProductInOutlet.
    destruct (ps !! InventoryProductItemDto.productId item) as [p|] eqn:Hp.
    + case_decide as Ho; simpl.
      * rewrite IH. split; [|by inversion_clear 1].
        intros Hall. constructor; [|done]. exists p. split; [done|]. congruence.
      * split; [by intros [? ?]|]. inversion_clear 1 as [|?? (p' & Hp' & Ho') _].
        congruence.
    + simpl. split; [by intros [? ?]|].
      inversion_clear 1 as [|?? (p' & Hp' & _) _]. congruence.
Qed.



(** Extra X8: [recordInventory] returns a record exactly when the outlet
    exists, the actioner exists and every counted product is a product of
    that outlet; otherwise it throws a 404 and leaves the whole store as it
    was, whatever counts came before the one that failed. *)
Theorem recordInventory_accepts g st outletId actionerId productsData :
  ((∃ st' saved,
      InventoryService.recordInventory g st outletId actionerId productsData
      = (st', inr saved))
   ↔ is_Some (outletRepository st !! outletId)
     ∧ is_Some (userRepository st !! actionerId)
     ∧ Forall (λ item,
                 ∃ p, productRepository st !! InventoryProductItemDto.productId item
                      = Some p
                      ∧ Product.outletId p = outletId) productsData)
  ∧ ∀ st' e,
      InventoryService.recordInventory g st outletId actionerId productsData
      = (st', inl e) →
      st' = st ∧ statusCode e = 404.
Proof.
  unfold InventoryService.recordInventory.
  pose proof (recordInventoryLoop_completes outletId productsData
                (productRepository st) []) as Hloop.
  destruct (outletRepository st !! outletId) as [outlet|].
  2:{ split; [|by intros ?? [= <- <-]].
      split; [by intros (? & ? & ?)|]. by intros [[? ?] _]. }
  destruct (userRepository st !! actionerId) as [actioner|].
  2:{ split; [|by intros ?? [= <- <-]].
      split; [by intros (? & ? & ?)|]. by intros (_ & [? ?] & _). }
  destruct (InventoryService.recordInventoryLoop _ _ _ _) as [e|lines] eqn:Hrun.
  - split.
    + split; [by intros (? & ? & ?)|].
      intros (_ & _ & Hall). by apply Hloop in Hall as [? ?].
    + intros st' e' [= <- <-]. split; [done|].
      by apply recordInventoryLoop_throws in Hrun as [? ->].
  - split; [|done]. split; [|by eexists _, _].
    intros _. split_and!; [done..|]. apply Hloop. by exists lines.
Qed.

(** Pens and a product that does not exist, counted together: nothing is
    recorded. *)
Lemma recordInventory_accepts_witness :
  ∃ st' e,
    InventoryService.recordInventory Scenario.g2 Scenario.store0 "o1" "u1"
      [InventoryProductItemDto.mk "p" 8; InventoryProductItemDto.mk "x" 1]
    = (st', inl e)
    ∧ st' = Scenario.store0 ∧ statusCode e = 404.
Proof.
  eexists _, _. split; [vm_compute; reflexivity|].
  exact (proj2 (recordInventory_accepts Scenario.g2 Scenario.store0 "o1" "u1"
                  [InventoryProductItemDto.mk "p" 8;
                   InventoryProductItemDto.mk "x" 1])
           _ _ eq_refl).
Defined.

(** ** Further properties of the scoped reads *)

Section ScopedReadsPaging.
Variable searchSales : string → Saved Sales.t → bool.
Variable searchInventories : string → Saved Inventory.t → bool.
Variable orderSales :
  string → SortOrder → list (Saved Sales.t) → list (Saved Sales.t).
Variable orderInventories :
  string → SortOrder → list (Saved Inventory.t) → list (Saved Inventory.t).
Hypothesis orderSales_perm : ∀ c o l, orderSales c o l ≡ₚ l.
Hypothesis orderInventories_perm : ∀ c o l, orderInventories c o l ≡ₚ l.

(** Extra X10: for a requester of type [owner], every row [getAllSales]
    returns was sold by a user of the requester's business and every row
    [getAllInventories] returns is of an outlet of the requester's business;
    for a requester of type [sales_rep], every row [getAllInventories] returns
    is of the requester's outlet; this for all filters and pagination. *)
Theorem list_isolation_owner st requester salesFilters inventoryFilters pagination :
  (Requester.userType requester = "owner" →
   (∀ row,
      row ∈ PaginatedResult.data
              (getAllSales searchSales orderSales st requester salesFilters
                           pagination) →
      ∃ salesPerson,
        salesPersonOf st row.2 = Some salesPerson
        ∧ is_Some (Requester.businessId requester)
        ∧ User.businessId salesPerson = Requester.businessId requester)
   ∧ (∀ row,
        row ∈ PaginatedResult.data
                (getAllInventories searchInventories orderInventories st requester
                                   inventoryFilters pagination) →
        ∃ outlet,
          outletOf st row.2 = Some outlet
          ∧ Some (Outlet.businessId outlet) = Requester.businessId requester))
  ∧ (Requester.userType requester = "sales_rep" →
     ∀ row,
       row ∈ PaginatedResult.data
               (getAllInventories searchInventories orderInventories st requester
                                  inventoryFilters pagination) →
       Some (Inventory.outletId row.2) = Requester.outletId requester).
Proof.
  split; [intros Hrole; split|intros Hrole].
  - intros row [_ Hscope]%getAllSales_in_scope; [|done].
    unfold salesScope in Hscope. rewrite Hrole in Hscope.
    repeat (case_decide; try done).
    apply sqlEq_true in Hscope as [Heq Hsome].
    destruct (salesPersonOf st row.2) as [salesPerson|]; simpl in Heq.
    + by exists salesPerson.
    + rewrite <- Heq in Hsome. by destruct Hsome.
  - intros row [_ Hscope]%getAllInventories_in_scope; [|done].
    unfold inventoryScope in Hscope. rewrite Hrole in Hscope.
    repeat (case_decide; try done).
    apply sqlEq_true in Hscope as [Heq Hsome].
    destruct (outletOf st row.2) as [outlet|]; simpl in Heq.
    + by exists outlet.
    + rewrite <- Heq in Hsome. by destruct Hsome.
  - intros row [_ Hscope]%getAllInventories_in_scope; [|done].
    unfold inventoryScope in Hscope. rewrite Hrole in Hscope.
    repeat (case_decide; try done); [|tauto].
    by apply sqlEq_true in Hscope as [-> _].
Qed.

End ScopedReadsPaging.

(** ** Single reads and route guards *)

Lemma sqlEq_optionalChain {A} (relation : option A) (property : A → option string)
    (parameter : option string) :
  sqlEq (relation ≫= property) parameter = true →
  optionalChain relation property = column parameter.
Proof.
  intros [Heq [v Hv]]%sqlEq_true. rewrite Hv in *.
  destruct relation as [r|]; simpl in *; [by rewrite Heq|done].
Qed.

Lemma sqlEq_column (c parameter : option string) :
  sqlEq c parameter = true → column c = column parameter.
Proof. by intros [-> _]%sqlEq_true. Qed.

(** A role check of a controller that does not fire. *)
Ltac passes_check :=
  rewrite decide_False; [|intros [? ?]; cbn [fst snd] in *; congruence].

(** Extra X12: every row [getAllSales] returns to a requester is a sale the
    [getSaleById] controller hands to the same requester, and every row
    [getAllInventories] returns is a record the [getInventoryById] controller
    hands to the same requester: what a requester can list, the requester can
    read. *)
Theorem listed_rows_are_readable
    (searchSales : string → Saved Sales.t → bool)
    (searchInventories : string → Saved Inventory.t → bool)
    (orderSales : string → SortOrder → list (Saved Sales.t) → list (Saved Sales.t))
    (orderInventories :
       string → SortOrder → list (Saved Inventory.t) → list (Saved Inventory.t))
    st requester salesFilters inventoryFilters pagination :
  (∀ c o l, orderSales c o l ≡ₚ l) →
  (∀ c o l, orderInventories c o l ≡ₚ l) →
  (∀ row,
     row ∈ PaginatedResult.data
             (getAllSales searchSales orderSales st requester salesFilters
                          pagination) →
     SalesController.getSaleById st requester row.1 = inr row)
  ∧ (∀ row,
       row ∈ PaginatedResult.data
               (getAllInventories searchInventories orderInventories st requester
                                  inventoryFilters pagination) →
       InventoryController.getInventoryById st requester row.1 = inr row).
Proof.
  intros HpermS HpermI. split.
  - intros [k sale] [Hrow Hscope]%getAllSales_in_scope; [|done]. simpl in Hrow.
    unfold SalesController.getSaleById, getSaleById. cbn [fst snd]. rewrite Hrow.
    unfold salesScope in Hscope. cbn [fst snd] in Hscope.
    destruct (decide (Requester.userType requester = "owner")) as [Ho|Ho].
    { apply sqlEq_optionalChain in Hscope. do 3 passes_check. done. }
    destruct (decide (Requester.userType requester = "store_executive")) as [He|He].
    { apply sqlEq_optionalChain in Hscope. do 3 passes_check. done. }
    destruct (decide (Requester.userType requester = "sales_rep")) as [Hr|Hr].
    { apply sqlEq_column in Hscope.
      change (column (Some ?x)) with (str x) in Hscope. do 3 passes_check. done. }
    do 3 passes_check. done.
  - intros [k inventory] [Hrow Hscope]%getAllInventories_in_scope; [|done].
    simpl in Hrow.
    unfold InventoryController.getInventoryById, getInventoryById. cbn [fst snd].
    rewrite Hrow. unfold inventoryScope in Hscope. cbn [fst snd] in Hscope.
    destruct (decide (Requester.userType requester = "owner")) as [Ho|Ho].
    { assert (optionalChain (outletOf st inventory) (λ o, Some (Outlet.businessId o))
              = column (Requester.businessId requester)) as Heq.
      { apply sqlEq_true in Hscope as [Heq Hsome]. rewrite <- Heq in *.
        destruct (outletOf st inventory); [done|by destruct Hsome]. }
      passes_check. rewrite decide_False; [done|].
      intros [[?|?] _]; congruence. }
    passes_check.
    destruct (decide (Requester.userType requester = "store_executive"
                      ∨ Requester.userType requester = "sales_rep")) as [Hs|Hs].
    { apply sqlEq_column in Hscope.
      change (column (Some ?x)) with (str x) in Hscope. by passes_check. }
    by passes_check.
Qed.

(** Extra X13: the [getSaleById] controller answers an unknown id with the
    404 of the service, whoever asks, and an existing sale with the sale or
    with a 403: the reply tells an existing sale from an unknown id.  A sales
    representative is handed a sale only when [salesPersonId] is the
    requester's id, and a store executive only when the sale has a sales
    person whose outlet column equals the requester's. *)
Theorem getSaleById_replies st user saleId :
  match salesRepository st !! saleId with
  | None =>
    SalesController.getSaleById st user saleId
    = inl (Thrown (mkApiError SaleRecordNotFound 404))
  | Some sale =>
    (SalesController.getSaleById st user saleId = inr (saleId, sale)
     ∨ SalesController.getSaleById st user saleId
       = inl (Denied NotAuthorizedToViewSale 403))
    ∧ (SalesController.getSaleById st user saleId = inr (saleId, sale) →
       (Requester.userType user = "sales_rep" →
        Sales.salesPersonId sale = Some (Requester.id user))
       ∧ (Requester.userType user = "store_executive" →
          ∃ salesPerson, salesPersonOf st sale = Some salesPerson
                         ∧ User.outletId salesPerson = Requester.outletId user))
  end.
Proof.
  unfold SalesController.getSaleById, getSaleById.
  destruct (salesRepository st !! saleId) as [sale|]; [|done].
  cbn [fst snd].
  destruct (decide (Requester.userType user = "owner" ∧ _)) as [?|Hown];
    [split; [by right|done]|].
  destruct (decide (Requester.userType user = "store_executive" ∧ _)) as [?|Hexec];
    [split; [by right|done]|].
  destruct (decide (Requester.userType user = "sales_rep" ∧ _)) as [?|Hrep];
    [split; [by right|done]|].
  split; [by left|]. intros _. split; intros Hrole.
  - destruct (Sales.salesPersonId sale) as [u|] eqn:Hu.
    + destruct (decide (u = Requester.id user)) as [->|Hne]; [done|].
      exfalso. apply Hrep. split; [done|]. simpl. congruence.
    + exfalso. apply Hrep. by split.
  - destruct (salesPersonOf st sale) as [salesPerson|] eqn:Hsp.
    + exists salesPerson. split; [done|].
      destruct (decide (User.outletId salesPerson = Requester.outletId user))
        as [Heq|Hne]; [done|].
      exfalso. apply Hexec. split; [done|]. simpl.
      destruct (User.outletId salesPerson), (Requester.outletId user);
        simpl; congruence.
    + exfalso. apply Hexec. split; [done|]. simpl.
      by destruct (Requester.outletId user).
Qed.

Lemma truthy_Some s : s ≠ "" → truthy (Some s) = Some s.
Proof. intros Hs. unfold truthy. by rewrite decide_False. Qed.

Lemma orElse_truthy a b s : truthy a = Some s → orElse a b = Some s.
Proof. intros Ha. unfold orElse. by rewrite Ha. Qed.

Lemma role_listed (role a b c d : string) :
  role ∈ [a; b; c; d] ↔ role = a ∨ role = b ∨ role = c ∨ role = d.
Proof. rewrite !elem_of_cons, elem_of_nil. tauto. Qed.

(** Extra X14: on the route that records a count, whose guards are
    [authorize] with the four roles and then [isStoreExecutiveOfOutlet], a
    request with an outlet id in its parameters passes exactly for an admin,
    for an owner, and for a store executive of that outlet.  A sales
    representative, although [authorize] lists the role, is refused with a
    403, and an owner passes whatever the outlet and its business. *)
Theorem recordInventoryRoute_passes req user outletId :
  Request.user req = Some user →
  Request.paramsOutletId req = Some outletId →
  outletId ≠ "" →
  (guards recordInventoryRoute req = next
   ↔ Requester.userType user = UserRole.ADMIN
     ∨ Requester.userType user = UserRole.OWNER
     ∨ (Requester.userType user = UserRole.STORE_EXECUTIVE
        ∧ Requester.outletId user = Some outletId))
  ∧ (Requester.userType user = UserRole.SALES_REP →
     guards recordInventoryRoute req = refuse NotAuthorizedForOutlet 403).
Proof.
  intros Huser Hparams Hne.
  assert (isStoreExecutiveOfOutlet req
          = if decide (Requester.userType user = UserRole.ADMIN
                       ∨ Requester.userType user = UserRole.OWNER) then next
            else if decide (Requester.userType user = UserRole.STORE_EXECUTIVE
                            ∧ Requester.outletId user = Some outletId) then next
            else refuse NotAuthorizedForOutlet 403) as Hguard.
  { unfold isStoreExecutiveOfOutlet. rewrite Huser, Hparams.
    cbn [fmap option_fmap option_map mbind option_bind].
    rewrite (orElse_truthy (Some outletId) _ outletId) by by apply truthy_Some.
    rewrite (orElse_truthy (Some outletId) _ outletId) by by apply truthy_Some.
    rewrite truthy_Some by done.
    destruct (decide (Requester.userType user = UserRole.ADMIN
                      ∨ Requester.userType user = UserRole.OWNER)) as [Hao|Hao].
    { rewrite decide_True; [done|]. destruct Hao as [-> | ->]; auto. }
    rewrite decide_False by (intros [[= ?]|[= ?]]; tauto).
    destruct (decide (Requester.userType user = UserRole.STORE_EXECUTIVE
                      ∧ Requester.outletId user = Some outletId)) as [Hse|Hse].
    { rewrite decide_True; [done|]. by destruct Hse as [-> ?]. }
    rewrite decide_False; [done|]. intros [[= ?] ?]. tauto. }
  assert (authorize [UserRole.ADMIN; UserRole.OWNER; UserRole.STORE_EXECUTIVE;
                     UserRole.SALES_REP] req = next
          ↔ Requester.userType user ∈ [UserRole.ADMIN; UserRole.OWNER;
                                        UserRole.STORE_EXECUTIVE; UserRole.SALES_REP])
    as Hauth.
  { unfold authorize. rewrite Huser.
    destruct (decide (_ ∈ _)) as [Hin|Hin]; split; intros ?;
      [exact Hin|reflexivity|discriminate|tauto]. }
  unfold recordInventoryRoute, guards. rewrite Hguard.
  destruct (authorize _ req) as [|m c] eqn:Ha.
  - split.
    + destruct (decide (Requester.userType user = UserRole.ADMIN
                        ∨ Requester.userType user = UserRole.OWNER)) as [Hao|Hao];
        [split; [tauto|done]|].
      destruct (decide (Requester.userType user = UserRole.STORE_EXECUTIVE
                        ∧ Requester.outletId user = Some outletId)) as [Hse|Hse];
        [split; [tauto|done]|].
      split; [discriminate|tauto].
    + intros Hrole. rewrite Hrole.
      rewrite decide_False by (by intros [[= ?]|[= ?]]).
      by rewrite decide_False by (by intros [[= ?] _]).
  - assert (¬ (Requester.userType user = UserRole.ADMIN
               ∨ Requester.userType user = UserRole.OWNER
               ∨ Requester.userType user = UserRole.STORE_EXECUTIVE
               ∨ Requester.userType user = UserRole.SALES_REP)) as Hout.
    { intros Hin. apply role_listed, Hauth in Hin. congruence. }
    split; [split; [done|tauto]|tauto].
Qed.

(** Extra X15: the route of the products available to a sales representative
    is guarded by [authorize] with the four roles and then by
    [isStoreExecutiveOfOutlet]: no request of a sales representative passes
    it, whatever its parameters and body, while a store executive with an
    outlet who names none passes. *)
Theorem salesRepAvailableProductsRoute_refuses req user :
  Request.user req = Some user →
  (Requester.userType user = UserRole.SALES_REP →
   guards salesRepAvailableProductsRoute req ≠ next)
  ∧ (Requester.userType user = UserRole.STORE_EXECUTIVE →
     truthy (Request.paramsOutletId req) = None →
     truthy (Request.bodyOutletId req) = None →
     is_Some (truthy (Requester.outletId user)) →
     guards salesRepAvailableProductsRoute req = next).
Proof.
  intros Huser.
  unfold salesRepAvailableProductsRoute, guards, authorize, isStoreExecutiveOfOutlet.
  rewrite Huser. simpl. split.
  - intros Hrole. rewrite Hrole.
    unfold UserRole.ADMIN, UserRole.OWNER, UserRole.STORE_EXECUTIVE, UserRole.SALES_REP.
    case_decide; [|done]. case_decide as Hao; [by destruct Hao as [[= ?]|[= ?]]|].
    destruct (truthy _); [|done]. case_decide as Hse; [|done].
    by destruct Hse as [[= ?] _].
  - intros Hrole Hp Hb [o Ho]. rewrite Hrole.
    unfold UserRole.ADMIN, UserRole.OWNER, UserRole.STORE_EXECUTIVE, UserRole.SALES_REP.
    case_decide as Hin; [|destruct Hin; apply role_listed; tauto].
    case_decide as Hao; [done|].
    unfold orElse at 2. rewrite Hp. unfold orElse. rewrite Hb.
    assert (Requester.outletId user = Some o) as Hout.
    { unfold truthy in Ho. destruct (Requester.outletId user); [|done].
      by case_decide. }
    rewrite Ho. case_decide as Hse; [done|]. destruct Hse. by split.
Qed.

(** Extra X18: the [getInventoryById] controller answers an unknown id with
    the 404 of the service and an existing record with the record or with a
    403.  A store executive or a sales representative is handed a record only
    when it is of the requester's outlet, and an owner only when the outlet
    of the record is there and of the requester's business. *)
Theorem getInventoryById_replies st user inventoryId :
  match inventoryRepository st !! inventoryId with
  | None =>
    InventoryController.getInventoryById st user inventoryId
    = inl (Thrown (mkApiError InventoryRecordNotFound 404))
  | Some inventory =>
    (InventoryController.getInventoryById st user inventoryId
     = inr (inventoryId, inventory)
     ∨ InventoryController.getInventoryById st user inventoryId
       = inl (Denied NotAuthorizedToViewInventory 403))
    ∧ (InventoryController.getInventoryById st user inventoryId
       = inr (inventoryId, inventory) →
       (Requester.userType user = "store_executive"
        ∨ Requester.userType user = "sales_rep" →
        Requester.outletId user = Some (Inventory.outletId inventory))
       ∧ (Requester.userType user = "owner" →
          ∃ outlet, outletOf st inventory = Some outlet
                    ∧ Requester.businessId user = Some (Outlet.businessId outlet)))
  end.
Proof.
  unfold InventoryController.getInventoryById, getInventoryById.
  destruct (inventoryRepository st !! inventoryId) as [inventory|]; [|done].
  cbn [fst snd].
  destruct (decide (Requester.userType user = "owner" ∧ _)) as [?|Hown];
    [split; [by right|done]|].
  destruct (decide ((Requester.userType user = "store_executive"
                     ∨ Requester.userType user = "sales_rep") ∧ _)) as [?|Hout];
    [split; [by right|done]|].
  split; [by left|]. intros _. split; intros Hrole.
  - destruct (Requester.outletId user) as [o|] eqn:Ho.
    + destruct (decide (o = Inventory.outletId inventory)) as [->|Hne]; [done|].
      exfalso. apply Hout. split; [done|]. simpl. congruence.
    + exfalso. apply Hout. by split.
  - destruct (outletOf st inventory) as [outlet|] eqn:Houtlet.
    + exists outlet. split; [done|].
      destruct (Requester.businessId user) as [b|] eqn:Hb.
      * destruct (decide (b = Outlet.businessId outlet)) as [->|Hne]; [done|].
        exfalso. apply Hown. split; [done|]. simpl. congruence.
      * exfalso. apply Hown. by split.
    + exfalso. apply Hown. split; [done|]. simpl.
      by destruct (Requester.businessId user).
Qed.

(** An owner of the business of both outlets sees the sales of both, the
    later one first. *)
Lemma list_isolation_owner_witness :
  let asOwner := Requester.mk "u8" "owner" (Some "b1") None in
  let sales :=
    getAllSales Scenario.searchAll Scenario.salesByDate Scenario.store4
                asOwner Scenario.noSalesFilters Scenario.firstPage in
  (PaginatedResult.data sales).*1 = ["s2"; "s1"]
  ∧ ∀ row, row ∈ PaginatedResult.data sales →
           ∃ salesPerson,
             salesPersonOf Scenario.store4 row.2 = Some salesPerson
             ∧ is_Some (Requester.businessId asOwner)
             ∧ User.businessId salesPerson = Some "b1".
Proof.
  intros asOwner sales. split; [reflexivity|].
  exact (proj1 (proj1 (list_isolation_owner Scenario.searchAll Scenario.searchAll
                         Scenario.salesByDate Scenario.inventoriesByDate
                         salesByDate_perm inventoriesByDate_perm
                         Scenario.store4 asOwner Scenario.noSalesFilters
                         Scenario.noInventoryFilters Scenario.firstPage)
                      eq_refl)).
Defined.

(** The representative of the first outlet lists one sale and reads it. *)
Lemma listed_rows_are_readable_witness :
  let listed :=
    getAllSales Scenario.searchAll Scenario.salesByDate Scenario.store4
                Scenario.asRep Scenario.noSalesFilters Scenario.firstPage in
  (PaginatedResult.data listed).*1 = ["s1"]
  ∧ (∀ row, row ∈ PaginatedResult.data listed →
            SalesController.getSaleById Scenario.store4 Scenario.asRep row.1
            = inr row)
  ∧ SalesController.getSaleById Scenario.store4 Scenario.asRep "s2"
    = inl (Denied NotAuthorizedToViewSale 403).
Proof.
  intros listed. split; [reflexivity|]. split; [|reflexivity].
  exact (proj1 (listed_rows_are_readable Scenario.searchAll Scenario.searchAll
                  Scenario.salesByDate Scenario.inventoriesByDate
                  Scenario.store4 Scenario.asRep Scenario.noSalesFilters
                  Scenario.noInventoryFilters Scenario.firstPage
                  salesByDate_perm inventoriesByDate_perm)).
Defined.

(** A count for the first outlet asked by its representative, by the
    executive of it and by an owner of another business. *)
Lemma recordInventoryRoute_passes_witness :
  let by_ user := Request.mk (Some user) (Some "o1") None in
  guards recordInventoryRoute (by_ Scenario.asRep)
  = refuse NotAuthorizedForOutlet 403
  ∧ guards recordInventoryRoute (by_ Scenario.asExecutive) = next
  ∧ guards recordInventoryRoute
      (by_ (Requester.mk "u7" "owner" (Some "b2") None)) = next.
Proof.
  intros by_. split; [|split].
  - apply (proj2 (recordInventoryRoute_passes (by_ Scenario.asRep) Scenario.asRep
                    "o1" eq_refl eq_refl ltac:(discriminate))).
    reflexivity.
  - apply (proj1 (recordInventoryRoute_passes (by_ Scenario.asExecutive)
                    Scenario.asExecutive "o1" eq_refl eq_refl ltac:(discriminate))).
    right. right. split; reflexivity.
  - apply (proj1 (recordInventoryRoute_passes
                    (by_ (Requester.mk "u7" "owner" (Some "b2") None))
                    (Requester.mk "u7" "owner" (Some "b2") None)
                    "o1" eq_refl eq_refl ltac:(discriminate))).
    right. left. reflexivity.
Defined.

(** The representative and the executive of the first outlet, asking with no
    outlet id in the request. *)
Lemma salesRepAvailableProductsRoute_refuses_witness :
  guards salesRepAvailableProductsRoute (Request.mk (Some Scenario.asRep) None None)
  = refuse NotAuthorizedForOutlet 403
  ∧ guards salesRepAvailableProductsRoute
      (Request.mk (Some Scenario.asRep) None None) ≠ next
  ∧ guards salesRepAvailableProductsRoute
      (Request.mk (Some Scenario.asExecutive) None None) = next.
Proof.
  split; [reflexivity|]. split.
  - exact (proj1 (salesRepAvailableProductsRoute_refuses
                    (Request.mk (Some Scenario.asRep) None None) Scenario.asRep
                    eq_refl) eq_refl).
  - apply (proj2 (salesRepAvailableProductsRoute_refuses
                    (Request.mk (Some Scenario.asExecutive) None None)
                    Scenario.asExecutive eq_refl));
      [reflexivity..|]. by exists "o1".
Defined.

(** ** Stock figures of the dashboard *)









(** ** The key of a cached response *)

Lemma append_nonempty_r (a b : string) : b ≠ "" → a +:+ b ≠ "".
Proof. destruct a; [done|]. intros _. discriminate. Qed.

Lemma append_assoc (a b c : string) : (a +:+ b) +:+ c = a +:+ (b +:+ c).
Proof.
  induction a as [|x a IH]; [done|].
  change (String x ((a +:+ b) +:+ c) = String x (a +:+ (b +:+ c))). by f_equal.
Qed.

Lemma join_snoc separator parts part :
  parts ≠ [] →
  CacheMiddleware.join separator (parts ++ [part])
  = CacheMiddleware.join separator parts +:+ separator +:+ part.
Proof.
  induction parts as [|p [|p' rest] IH]; intros Hne; [done|done|].
  change (CacheMiddleware.join separator ((p :: p' :: rest) ++ [part]))
    with (p +:+ separator
            +:+ CacheMiddleware.join separator ((p' :: rest) ++ [part])).
  rewrite IH by done.
  change (CacheMiddleware.join separator (p :: p' :: rest))
    with (p +:+ separator +:+ CacheMiddleware.join separator (p' :: rest)).
  by rewrite !append_assoc.
Qed.

(** The parts before the user part are never empty, so that the filter keeps
    them all. *)
Lemma cacheKey_parts options method originalUrl (headers : gmap string string) :
  ∃ parts,
    parts ≠ []
    ∧ (∀ user',
         CacheMiddleware.cacheKey options method originalUrl headers user'
         = match user' with
           | Some u =>
             if CacheMiddleware.userSpecific options
             then CacheMiddleware.join "|" (parts ++ ["user:" +:+ Requester.id u])
             else CacheMiddleware.join "|" parts
           | None => CacheMiddleware.join "|" parts
           end)
    ∧ (CacheMiddleware.varyBy options = [] →
       parts = [method +:+ ":" +:+ originalUrl]).
Proof.
  set (baseKey := method +:+ ":" +:+ originalUrl).
  set (varyParts :=
         (λ header, header +:+ ":" +:+ default "none" (truthy (headers !! header)))
           <$> CacheMiddleware.varyBy options).
  assert (List.filter (λ part, bool_decide (part ≠ "")) (baseKey :: varyParts)
          = baseKey :: varyParts) as Hkeep.
  { apply forallb_filter_id, forallb_forall. intros part Hpart.
    apply bool_decide_eq_true.
    destruct Hpart as [<-|Hpart]; [by apply append_nonempty_r|].
    apply in_map_iff in Hpart as (header & <- & _). by apply append_nonempty_r. }
  exists (baseKey :: varyParts).
  split_and!; [done| |intros Hv; unfold varyParts; by rewrite Hv].
  intros user'. unfold CacheMiddleware.cacheKey. fold baseKey. fold varyParts.
  rewrite (app_comm_cons varyParts), List.filter_app, Hkeep.
  destruct user' as [u|]; [destruct (CacheMiddleware.userSpecific options)|];
    simpl; by rewrite ?app_nil_r.
Qed.

(** Extra X17: the key under which a response is cached, when no key
    generator is given, does not depend on the user unless the cache is
    user-specific: with the default options, which the sales and inventory
    routes use, it is the method, a colon and the URL, the same for every
    requester.  When the cache is user-specific, two users with different ids
    get different keys for the same request. *)
Theorem cacheKey_and_user options method originalUrl headers :
  (CacheMiddleware.userSpecific options = false →
   ∀ user user',
     CacheMiddleware.cacheKey options method originalUrl headers user
     = CacheMiddleware.cacheKey options method originalUrl headers user')
  ∧ (∀ user,
       CacheMiddleware.cacheKey CacheMiddleware.defaults method originalUrl
                                headers user
       = method +:+ ":" +:+ originalUrl)
  ∧ (CacheMiddleware.userSpecific options = true →
     ∀ user user',
       Requester.id user ≠ Requester.id user' →
       CacheMiddleware.cacheKey options method originalUrl headers (Some user)
       ≠ CacheMiddleware.cacheKey options method originalUrl headers (Some user')).
Proof.
  split_and!.
  - intros Hshared user user'.
    destruct (cacheKey_parts options method originalUrl headers)
      as (parts & _ & Hkey & _).
    rewrite !Hkey, Hshared. by destruct user, user'.
  - intros user.
    destruct (cacheKey_parts CacheMiddleware.defaults method originalUrl headers)
      as (parts & _ & Hkey & Hparts).
    rewrite Hkey, Hparts by done. by destruct user.
  - intros Hown user user' Hid.
    destruct (cacheKey_parts options method originalUrl headers)
      as (parts & Hne & Hkey & _).
    rewrite !Hkey, Hown, !join_snoc by done.
    intros Heq. apply String.app_inj in Heq. simpl in Heq. by simplify_eq.
Qed.

(** The list of sales asked by the representative and by an admin. *)
Lemma cacheKey_and_user_witness :
  let own := CacheMiddleware.mkOptions ["accept-language"] true in
  let admin := Requester.mk "u0" "admin" None None in
  CacheMiddleware.cacheKey CacheMiddleware.defaults "GET" "/api/v1/sales" ∅
                           (Some Scenario.asRep)
  = CacheMiddleware.cacheKey CacheMiddleware.defaults "GET" "/api/v1/sales" ∅
                             (Some admin)
  ∧ CacheMiddleware.cacheKey own "GET" "/api/v1/sales" ∅ (Some Scenario.asRep)
    = "GET:/api/v1/sales|accept-language:none|user:u1"
  ∧ CacheMiddleware.cacheKey own "GET" "/api/v1/sales" ∅ (Some Scenario.asRep)
    ≠ CacheMiddleware.cacheKey own "GET" "/api/v1/sales" ∅ (Some admin).
Proof.
  intros own admin. split; [|split; [reflexivity|]].
  - apply (proj1 (cacheKey_and_user CacheMiddleware.defaults "GET" "/api/v1/sales" ∅)
             eq_refl).
  - apply (proj2 (proj2 (cacheKey_and_user own "GET" "/api/v1/sales" ∅)) eq_refl).
    discriminate.
Defined.
